(** * Import of communal payments: a shallow embedding of
    [import_communal_payments.py] and the properties of its pipeline.

    The file follows the source top to bottom: Python values and the string
    methods the code calls, the exception classes, the storage layer the code
    queries, the [CommunalPayment] dataclass, and the service
    [ImportCommunalPaymentsService] with [build_payment],
    [import_data_from_file], [save_payments] and [run]. *)

From Stdlib Require Import String Ascii List ZArith Lia Bool Arith.
From Stdlib Require Import DecimalString.
Import ListNotations.
Open Scope string_scope.
Open Scope nat_scope.

(* ===================================================================== *)
(** ** Python strings *)
(* ===================================================================== *)

(** Python [str] values are modelled by [string], one [ascii] per character;
    the text is taken to be ASCII, so [lower] only moves [A]-[Z] and the
    white space of [strip] is the ASCII white space of [str.isspace]. *)
Module PyStr.

(** [str.isspace] on one ASCII character: TAB, LF, VT, FF, CR, the four
    separators 0x1c-0x1f and the blank. *)
Definition isspace (c : ascii) : bool :=
  let n := nat_of_ascii c in
  ((9 <=? n) && (n <=? 13)) || ((28 <=? n) && (n <=? 32)).

Definition lower_char (c : ascii) : ascii :=
  let n := nat_of_ascii c in
  if (65 <=? n) && (n <=? 90) then ascii_of_nat (n + 32) else c.

(** [s.lower()] *)
Fixpoint lower (s : string) : string :=
  match s with
  | EmptyString => EmptyString
  | String c r => String (lower_char c) (lower r)
  end.

(** [s.lstrip()] *)
Fixpoint lstrip (s : string) : string :=
  match s with
  | EmptyString => EmptyString
  | String c r => if isspace c then lstrip r else s
  end.

(** [s.rstrip()]: a character is dropped when it is white space and all
    that follows it has been dropped. *)
Fixpoint rstrip (s : string) : string :=
  match s with
  | EmptyString => EmptyString
  | String c r =>
      match rstrip r with
      | EmptyString => if isspace c then EmptyString else String c EmptyString
      | r' => String c r'
      end
  end.

(** [s.strip()] *)
Definition strip (s : string) : string := rstrip (lstrip s).

(** [s.replace(a, b)] for one-character [a] and [b]. *)
Fixpoint replace (a b : ascii) (s : string) : string :=
  match s with
  | EmptyString => EmptyString
  | String c r => String (if Ascii.eqb c a then b else c) (replace a b r)
  end.

(** [s.split(sep)[-1]] for a one-character [sep]: what follows the last
    [sep], the whole of [s] when it has none. [acc] is the piece being
    read. *)
Fixpoint split_last_from (sep : ascii) (acc s : string) : string :=
  match s with
  | EmptyString => acc
  | String c r =>
      if Ascii.eqb c sep then split_last_from sep EmptyString r
      else split_last_from sep (acc ++ String c EmptyString) r
  end.

Definition split_last (sep : ascii) (s : string) : string :=
  split_last_from sep EmptyString s.

(** [str(n)] for a natural number, as the f-strings print [i] and
    [len(line)]. *)
Definition of_nat (n : nat) : string := NilZero.string_of_uint (Nat.to_uint n).

(** [str(z)] for an integer. *)
Definition of_Z (z : Z) : string := NilZero.string_of_int (Z.to_int z).

(** ["%02d" % z] and ["%04d" % z] for a non-negative [z]: zeros on the
    left up to [width] characters. *)
Fixpoint zeros (n : nat) : string :=
  match n with O => EmptyString | S k => String "0" (zeros k) end.

Definition zfill (width : nat) (z : Z) : string :=
  let s := of_Z z in zeros (width - String.length s) ++ s.

(** [needle in s] *)
Fixpoint contains (needle s : string) : bool :=
  if String.prefix needle s then true
  else match s with
       | EmptyString => false
       | String _ r => contains needle r
       end.

End PyStr.

(* ===================================================================== *)
(** ** [datetime.datetime] and [strptime(s, "%d-%m-%Y")] *)
(* ===================================================================== *)

Record datetime := mk_datetime {
  year : Z; month : Z; day : Z; hour : Z; minute : Z; second : Z
}.

Module PyDate.

Definition is_leap (y : Z) : bool :=
  ((y mod 4 =? 0) && negb (y mod 100 =? 0))%Z || (y mod 400 =? 0)%Z.

Definition days_in_month (y m : Z) : Z :=
  if (m =? 2)%Z then (if is_leap y then 29 else 28)%Z
  else if ((m =? 4) || (m =? 6) || (m =? 9) || (m =? 11))%Z then 30%Z
  else 31%Z.

(** The range check of the [datetime] constructor on a date. *)
Definition valid_date (y m d : Z) : bool :=
  ((1 <=? y) && (y <=? 9999) && (1 <=? m) && (m <=? 12)
   && (1 <=? d) && (d <=? days_in_month y m))%Z.

Definition digit_val (c : ascii) : option Z :=
  let n := nat_of_ascii c in
  if (48 <=? n) && (n <=? 57) then Some (Z.of_nat (n - 48)) else None.

Definition in_range (lo hi : Z) (c : ascii) : option Z :=
  match digit_val c with
  | Some v => if ((lo <=? v) && (v <=? hi))%Z then Some v else None
  | None => None
  end.

(** One alternative of a directive's pattern, tried on the text [s]: the
    value read and the text left, when it matches. *)
Definition two (lo1 hi1 lo2 hi2 : Z) (s : string) : option (Z * string) :=
  match s with
  | String a (String b r) =>
      match in_range lo1 hi1 a, in_range lo2 hi2 b with
      | Some x, Some y => Some (10 * x + y, r)%Z
      | _, _ => None
      end
  | _ => None
  end.

Definition one (lo hi : Z) (s : string) : option (Z * string) :=
  match s with
  | String a r =>
      match in_range lo hi a with Some x => Some (x, r) | None => None end
  | _ => None
  end.

Definition blank_one (lo hi : Z) (s : string) : option (Z * string) :=
  match s with
  | String " " r => one lo hi r
  | _ => None
  end.

(** [%d] is [3[0-1]|[1-2]\d|0[1-9]|[1-9]| [1-9]]. *)
Definition alts_d : list (string -> option (Z * string)) :=
  [two 3 3 0 1; two 1 2 0 9; two 0 0 1 9; one 1 9; blank_one 1 9].

(** [%m] is [1[0-2]|0[1-9]|[1-9]]. *)
Definition alts_m : list (string -> option (Z * string)) :=
  [two 1 1 0 2; two 0 0 1 9; one 1 9].

(** [%Y] is [\d\d\d\d]. *)
Definition four_digits (s : string) : option (Z * string) :=
  match s with
  | String a (String b (String c (String d r))) =>
      match digit_val a, digit_val b, digit_val c, digit_val d with
      | Some x, Some y, Some z, Some w =>
          Some (1000 * x + 100 * y + 10 * z + w, r)%Z
      | _, _, _, _ => None
      end
  | _ => None
  end.

Definition dash (s : string) : option string :=
  match s with
  | String "-" r => Some r
  | _ => None
  end.

(** The alternatives of a group are tried in order; an alternative is kept
    when the rest of the pattern, [k], matches what it leaves. *)
Fixpoint first_alt {A} (alts : list (string -> option (Z * string)))
         (s : string) (k : Z -> string -> option A) : option A :=
  match alts with
  | [] => None
  | alt :: more =>
      match alt s with
      | Some (v, r) =>
          match k v r with
          | Some a => Some a
          | None => first_alt more s k
          end
      | None => first_alt more s k
      end
  end.

(** The match of the compiled pattern [%d-%m-%Y] at the start of [s]:
    day, month, year and the text the match leaves. *)
Definition match_dmY (s : string) : option (Z * Z * Z * string) :=
  first_alt alts_d s (fun d r1 =>
    match dash r1 with
    | None => None
    | Some r2 =>
        first_alt alts_m r2 (fun m r3 =>
          match dash r3 with
          | None => None
          | Some r4 =>
              match four_digits r4 with
              | Some (y, r5) => Some (d, m, y, r5)
              | None => None
              end
          end)
    end).

(** [datetime.datetime.strptime(s, "%d-%m-%Y")]; [None] is [ValueError]:
    no match, text left after the match, or a day the month does not
    have. *)
Definition strptime_dmY (s : string) : option datetime :=
  match match_dmY s with
  | Some (d, m, y, EmptyString) =>
      if valid_date y m d then Some (mk_datetime y m d 0 0 0) else None
  | _ => None
  end.

(** [str(dt)] *)
Definition to_str (dt : datetime) : string :=
  PyStr.zfill 4 (year dt) ++ "-" ++ PyStr.zfill 2 (month dt) ++ "-"
  ++ PyStr.zfill 2 (day dt) ++ " " ++ PyStr.zfill 2 (hour dt) ++ ":"
  ++ PyStr.zfill 2 (minute dt) ++ ":" ++ PyStr.zfill 2 (second dt).

End PyDate.

(* ===================================================================== *)
(** ** Exceptions and results *)
(* ===================================================================== *)

(** The Django models the code queries. *)
Inductive model := MUser | MApartment | MCurrency | MCommunalPayment.

(** The exception classes of the module, and those of Python and Django the
    code can meet. [FileTypeError] is built from the exception it wraps in
    [import_data_from_file] and from a text in [get_data_from_xlsx]. *)
Inductive exn :=
| ImportPaymentException (msg : string)
| ParseFileError (msg : string)
| FileTypeError (cause : exn)
| FileTypeError_text (msg : string)
| KeyError (key : string)
| AttributeError (msg : string)
| UnboundLocalError (name : string)
| DoesNotExist (m : model)
| MultipleObjectsReturned (m : model)
| OtherError (msg : string).

(** [isinstance(e, ImportPaymentException)]: the base class and its two
    subclasses. *)
Definition is_ImportPaymentException (e : exn) : bool :=
  match e with
  | ImportPaymentException _ | ParseFileError _
  | FileTypeError _ | FileTypeError_text _ => true
  | _ => false
  end.

Definition is_FileTypeError (e : exn) : bool :=
  match e with
  | FileTypeError _ | FileTypeError_text _ => true
  | _ => false
  end.

(** A call returns a value or raises. *)
Inductive result (A : Type) :=
| Ok (a : A)
| Raise (e : exn).
Arguments Ok {A} a.
Arguments Raise {A} e.

Definition rbind {A B} (r : result A) (k : A -> result B) : result B :=
  match r with
  | Ok a => k a
  | Raise e => Raise e
  end.

Notation "'let*' x ':=' r 'in' k" := (rbind r (fun x => k))
  (at level 10, x name, r at level 100, k at level 200).

(* ===================================================================== *)
(** ** Cell values *)
(* ===================================================================== *)

(** What a reader puts in a row: [csv] gives text only, [openpyxl] also
    gives [datetime] values, [None] for an empty cell, and numbers and other
    objects, kept as what [str()] and [bool()] return for them. *)
Inductive cell :=
| CStr (s : string)
| CDateTime (d : datetime)
| CNone
| COther (repr : string) (truth : bool).

(** [str(value)] *)
Definition py_str (v : cell) : string :=
  match v with
  | CStr s => s
  | CDateTime d => PyDate.to_str d
  | CNone => "None"
  | COther r _ => r
  end.

(** [bool(value)], the test of [not value]. *)
Definition truthy (v : cell) : bool :=
  match v with
  | CStr s => negb (String.eqb s "")
  | CDateTime _ => true
  | CNone => false
  | COther _ b => b
  end.

(** The class name in the message of a failed attribute lookup. *)
Definition type_name (v : cell) : string :=
  match v with
  | CStr _ => "str"
  | CDateTime _ => "datetime.datetime"
  | CNone => "NoneType"
  | COther _ _ => "object"
  end.

(** [line[k]] on a list whose length has been checked. *)
Definition item (line : list cell) (k : nat) : cell := nth k line CNone.

Definition datetime_eqb (a b : datetime) : bool :=
  ((year a =? year b) && (month a =? month b) && (day a =? day b)
   && (hour a =? hour b) && (minute a =? minute b)
   && (second a =? second b))%Z.

(* ===================================================================== *)
(** ** The store: users, apartments, lodgers, currencies, payments *)
(* ===================================================================== *)

(** Modelled from the spec: the models [User], [Apartment] (with its
    [lodgers] relation) and [Currency] of [apps.accounts], [apps.buildings]
    and [apps.payments], which are not in the source file. A row is its
    primary key and the fields the import reads. *)
Record User := mk_User { user_pk : Z; user_email : string }.
Record Apartment := mk_Apartment { apartment_pk : Z; apartment_account_number : string }.
Record Lodger := mk_Lodger { lodger_apartment_id : Z; resident : User }.
Record Currency := mk_Currency { currency_code : string }.

(** [Model.objects.get(...)]: the one row the condition selects;
    [DoesNotExist] when it selects none, [MultipleObjectsReturned] when it
    selects several. *)
Definition objects_get {A} (m : model) (cond : A -> bool) (table : list A)
  : result A :=
  match filter cond table with
  | [] => Raise (DoesNotExist m)
  | [x] => Ok x
  | _ :: _ :: _ => Raise (MultipleObjectsReturned m)
  end.

(** The [file] argument of the service: a path ([str]), an
    [InMemoryUploadedFile] with its [name], or any other object. *)
Inductive file_arg :=
| Path (path : string)
| InMemoryUploadedFile (name : string)
| OtherObject.

(** An [openpyxl] workbook: its active sheet, if any; a sheet is its stored
    rows, and a cell outside them is empty. *)
Definition sheet := list (list cell).
Record workbook := mk_workbook { active : option sheet }.

Section Service.

(** The values of [decimal.Decimal]. *)
Context {decimal : Type}.

(** Modelled from the spec: the model [CommunalPayment] of
    [apps.payments.models], which is not in the source file: the four key
    fields and the three fields [update_or_create] sets. *)
Record StoredPayment := mk_StoredPayment {
  sp_payer_id : Z;
  sp_apartment_id : Z;
  sp_date : datetime;
  sp_ext_number : string;
  sp_currency : Currency;
  sp_price : decimal;
  sp_description : string
}.

Record Store := mk_Store {
  users : list User;
  apartments : list Apartment;
  lodgers : list Lodger;
  currencies : list Currency;
  communal_payments : list StoredPayment
}.

Definition with_communal_payments (st : Store) (t : list StoredPayment) : Store :=
  {| users := users st; apartments := apartments st; lodgers := lodgers st;
     currencies := currencies st; communal_payments := t |}.

(** Modelled from the spec: [PaymentsEmailService] of
    [apps.payments.services], which is not in the source file. A call
    either returns ([None]) or raises; a call that returned is recorded in
    the outbox. *)
Inductive notification :=
| PayerNotice (payment : StoredPayment)
| LodgerNotice (payment : StoredPayment) (to : User).

(** The libraries and collaborators a run calls:
    - [Decimal], the constructor of [decimal.Decimal] from text, where
      [None] is a [DecimalException];
    - what the readers give for a file: [csv.reader] over the opened or
      decoded text, and [openpyxl.load_workbook];
    - the two calls of [PaymentsEmailService]. *)
Record Environment := mk_Environment {
  Decimal : string -> option decimal;
  csv_reader : file_arg -> result (list (list string));
  load_workbook : file_arg -> result workbook;
  payer_new_communal_payment : StoredPayment -> option exn;
  lodger_new_communal_payment : StoredPayment -> User -> option exn
}.

Variable env : Environment.

(** What a run can change: the store, the notifications sent, and the
    exceptions handed to [capture_exception]. *)
Record World := mk_World {
  db : Store;
  outbox : list notification;
  sentry : list exn
}.

(** Code with effects: from a world to a result and the world after. *)
Definition M (A : Type) : Type := World -> result A * World.

Definition ret {A} (a : A) : M A := fun w => (Ok a, w).

Definition raise {A} (e : exn) : M A := fun w => (Raise e, w).

Definition bind {A B} (m : M A) (k : A -> M B) : M B :=
  fun w =>
    match m w with
    | (Ok a, w') => k a w'
    | (Raise e, w') => (Raise e, w')
    end.

Notation "x <- m ;; k" := (bind m (fun x => k))
  (at level 61, m at next level, right associativity).
Notation "m ;;; k" := (bind m (fun _ => k))
  (at level 61, right associativity).

(** [for x in xs: body(x)] *)
Fixpoint for_each {A} (xs : list A) (body : A -> M unit) : M unit :=
  match xs with
  | [] => ret tt
  | x :: rest => body x ;;; for_each rest body
  end.

(** [with transaction.atomic(): body]: when the body raises, the store is
    put back as it was on entry and the exception goes on; what was sent
    or captured is not undone. *)
Definition atomic {A} (body : M A) : M A :=
  fun w =>
    match body w with
    | (Ok a, w') => (Ok a, w')
    | (Raise e, w') =>
        (Raise e, {| db := db w; outbox := outbox w'; sentry := sentry w' |})
    end.

(* =================================================================== *)
(** *** [CommunalPayment], the dataclass *)
(* =================================================================== *)

Record CommunalPayment := mk_CommunalPayment {
  email : string;
  payer : User;
  account_number : string;
  apartment : Apartment;
  date : datetime;
  ext_number : string;
  price : decimal;
  building : string;
  description : string;
  cp_currency : Currency
}.

Definition get_payer_by_email (st : Store) (email : string) : result User :=
  match objects_get MUser (fun u => String.eqb (user_email u) email) (users st) with
  | Raise (DoesNotExist MUser) =>
      Raise (ImportPaymentException ("Payer by email = " ++ email ++ " not found"))
  | r => r
  end.

Definition get_apartment_by_account (st : Store) (account_number : string)
  : result Apartment :=
  match objects_get MApartment
          (fun a => String.eqb (apartment_account_number a) account_number)
          (apartments st) with
  | Raise (DoesNotExist MApartment) =>
      Raise (ImportPaymentException
               ("Apartment by account number #" ++ account_number ++ " not found"))
  | r => r
  end.

(** The constructor: the fields given, then [__post_init__], which looks
    up the payer and then the apartment. *)
Definition new_CommunalPayment (st : Store)
           (email account_number : string) (date : datetime)
           (ext_number : string) (price : decimal)
           (description building : string) (currency : Currency)
  : result CommunalPayment :=
  let* payer := get_payer_by_email st email in
  let* apartment := get_apartment_by_account st account_number in
  Ok {| email := email; payer := payer; account_number := account_number;
        apartment := apartment; date := date; ext_number := ext_number;
        price := price; building := building; description := description;
        cp_currency := currency |}.

(** The lookup of [update_or_create]: the four keyword arguments. *)
Definition same_key (p : CommunalPayment) (r : StoredPayment) : bool :=
  (sp_payer_id r =? user_pk (payer p))%Z
  && (sp_apartment_id r =? apartment_pk (apartment p))%Z
  && datetime_eqb (sp_date r) (date p)
  && String.eqb (sp_ext_number r) (ext_number p).

(** The row [update_or_create] leaves for an existing row [r]: the
    [defaults] set, the rest kept. *)
Definition set_defaults (p : CommunalPayment) (r : StoredPayment) : StoredPayment :=
  {| sp_payer_id := sp_payer_id r; sp_apartment_id := sp_apartment_id r;
     sp_date := sp_date r; sp_ext_number := sp_ext_number r;
     sp_currency := cp_currency p; sp_price := price p;
     sp_description := description p |}.

(** The row [update_or_create] creates. *)
Definition created_row (p : CommunalPayment) : StoredPayment :=
  {| sp_payer_id := user_pk (payer p);
     sp_apartment_id := apartment_pk (apartment p);
     sp_date := date p; sp_ext_number := ext_number p;
     sp_currency := cp_currency p; sp_price := price p;
     sp_description := description p |}.

(** [objects.update_or_create(payer=, apartment=, date=, ext_number=,
    defaults=...)] on the table: the row, whether it was created, and the
    table after. *)
Definition update_or_create (p : CommunalPayment) (table : list StoredPayment)
  : result (StoredPayment * bool * list StoredPayment) :=
  match objects_get MCommunalPayment (same_key p) table with
  | Ok r =>
      Ok (set_defaults p r, false,
          map (fun x => if same_key p x then set_defaults p x else x) table)
  | Raise (DoesNotExist MCommunalPayment) =>
      Ok (created_row p, true, (table ++ [created_row p])%list)
  | Raise e => Raise e
  end.

Definition save_payment (self : CommunalPayment) : M StoredPayment :=
  fun w =>
    match update_or_create self (communal_payments (db w)) with
    | Ok (payment, _, table) =>
        (Ok payment,
         {| db := with_communal_payments (db w) table;
            outbox := outbox w; sentry := sentry w |})
    | Raise e => (Raise e, w)
    end.

(* =================================================================== *)
(** *** [ImportCommunalPaymentsService] *)
(* =================================================================== *)

Definition cols : nat := 8.
Definition start_row : nat := 2.
Definition col_ext_number : nat := 0.
Definition col_month : nat := 1.
Definition col_building : nat := 2.
Definition col_apartment : nat := 3.
Definition col_account_number : nat := 4.
Definition col_email : nat := 5.
Definition col_description : nat := 6.
Definition col_price : nat := 7.

(** The instance: [self.file], [self.payments], [self.errors],
    [self.currency]. *)
Record Service := mk_Service {
  file : file_arg;
  payments : list CommunalPayment;
  errors : list exn;
  currency : Currency
}.

(** [__init__], with the name of the setting
    [S1_DEFAULT_COMMUNAL_PAYMENT_CURRENCY_CODE] resolved to its value. *)
Definition init (default_code : string) (f : file_arg) (st : Store)
  : result Service :=
  let* c := objects_get MCurrency
              (fun c => String.eqb (currency_code c) default_code)
              (currencies st) in
  Ok {| file := f; payments := []; errors := []; currency := c |}.

Definition append_payment (self : Service) (p : CommunalPayment) : Service :=
  {| file := file self; payments := (payments self ++ [p])%list;
     errors := errors self; currency := currency self |}.

Definition append_error (self : Service) (e : exn) : Service :=
  {| file := file self; payments := payments self;
     errors := (errors self ++ [e])%list; currency := currency self |}.

(** The text [build_payment] hands to [Decimal]. *)
Definition price_text (v : cell) : string :=
  PyStr.replace "," "." (PyStr.strip (py_str v)).

Definition columns_message (i got : nat) : string :=
  "Invalid number of columns: line=" ++ PyStr.of_nat i ++ " got="
  ++ PyStr.of_nat got ++ " expected=" ++ PyStr.of_nat cols.

Definition price_message (price_str : string) : string :=
  "Invalid price value format: got=" ++ price_str ++ " expected='00.00'".

Definition month_message (date : string) : string :=
  "Invalid month value format: got=" ++ date ++ " expected='01-01-2001'".

(** The date of the row: a [datetime] is kept; on anything else the code
    calls [.strip()], which only text has. *)
Definition parse_month (v : cell) : result datetime :=
  match v with
  | CDateTime d => Ok d
  | CStr s =>
      match PyDate.strptime_dmY (PyStr.lower (PyStr.strip s)) with
      | Some d => Ok d
      | None => Raise (ParseFileError (month_message s))
      end
  | other =>
      Raise (AttributeError
               ("'" ++ type_name other ++ "' object has no attribute 'strip'"))
  end.

Definition build_payment (self : Service) (st : Store)
           (line : list cell) (i : nat) : result CommunalPayment :=
  if negb (length line =? cols) then
    Raise (ParseFileError (columns_message i (length line)))
  else
    let price_str := price_text (item line col_price) in
    match Decimal env price_str with
    | None => Raise (ParseFileError (price_message price_str))
    | Some price =>
        let* date := parse_month (item line col_month) in
        new_CommunalPayment st
          (PyStr.lower (PyStr.strip (py_str (item line col_email))))
          (PyStr.strip (py_str (item line col_account_number)))
          date
          (PyStr.lower (PyStr.strip (py_str (item line col_ext_number))))
          price
          (PyStr.lower (PyStr.strip (py_str (item line col_description))))
          (PyStr.lower (PyStr.strip (py_str (item line col_building))))
          (currency self)
    end.

Definition get_data_from_cvs (self : Service) : result (list (list cell)) :=
  match file self with
  | InMemoryUploadedFile _ | Path _ =>
      let* rows := csv_reader env (file self) in
      Ok (map (map CStr) rows)
  | OtherObject => Ok []
  end.

(** The [while is_row] loop over the rows of the sheet: a row whose first
    cell is empty ends the reading, and so does the row after the last
    stored one; any other row gives its first [cols] cells. *)
Fixpoint read_sheet (rows : sheet) : list (list cell) :=
  match rows with
  | [] => []
  | r :: rest =>
      if truthy (nth 0 r CNone)
      then map (fun c => nth c r CNone) (seq 0 cols) :: read_sheet rest
      else []
  end.

Definition get_data_from_xlsx (self : Service) : result (list (list cell)) :=
  let* wb := load_workbook env (file self) in
  match active wb with
  | None => Raise (FileTypeError_text "File does not have sheet")
  | Some sh => Ok (read_sheet sh)
  end.

(** [func[ext]()] for [func = {"csv": ..., "xlsx": ...}]. *)
Definition func (self : Service) (ext : string) : result (list (list cell)) :=
  if String.eqb ext "csv" then get_data_from_cvs self
  else if String.eqb ext "xlsx" then get_data_from_xlsx self
  else Raise (KeyError ext).

Definition extension (name : string) : string :=
  PyStr.lower (PyStr.split_last "." name).

(** The [try] block: what [data] is bound to on leaving it, [None] when no
    branch binds it. The [else] branch builds a [ValueError] and drops
    it. *)
Definition load_data (self : Service) : result (option (list (list cell))) :=
  match file self with
  | Path path =>
      let* data := func self (extension path) in Ok (Some data)
  | InMemoryUploadedFile name =>
      let* data := func self (extension name) in Ok (Some data)
  | OtherObject => Ok None
  end.

(** The [for i, line in enumerate(data, 1)] loop, from line [i] on. *)
Fixpoint import_lines (st : Store) (i : nat) (data : list (list cell))
         (self : Service) : result Service :=
  match data with
  | [] => Ok self
  | line :: rest =>
      if i <? start_row then import_lines st (S i) rest self
      else
        match build_payment self st line i with
        | Ok payment => import_lines st (S i) rest (append_payment self payment)
        | Raise e =>
            if is_ImportPaymentException e
            then import_lines st (S i) rest (append_error self e)
            else Raise e
        end
  end.

Definition capture_exception (e : exn) : M unit :=
  fun w => (Ok tt, {| db := db w; outbox := outbox w;
                      sentry := (sentry w ++ [e])%list |}).

Definition import_data_from_file (self : Service) : M Service :=
  match load_data self with
  | Raise e =>
      capture_exception e ;;;
      ret (append_error self (FileTypeError e))
  | Ok None => raise (UnboundLocalError "data")
  | Ok (Some data) =>
      fun w =>
        match import_lines (db w) 1 data self with
        | Ok self' => (Ok self', w)
        | Raise e => (Raise e, w)
        end
  end.

Definition send (n : notification) (outcome : option exn) : M unit :=
  fun w =>
    match outcome with
    | None => (Ok tt, {| db := db w; outbox := (outbox w ++ [n])%list;
                         sentry := sentry w |})
    | Some e => (Raise e, w)
    end.

(** [payment.apartment.lodgers.all()] *)
Definition lodgers_all (payment : StoredPayment) : M (list Lodger) :=
  fun w =>
    (Ok (filter (fun l => (lodger_apartment_id l =? sp_apartment_id payment)%Z)
                (lodgers (db w))), w).

(** The first loop of [save_payments]. *)
Fixpoint save_all (ps : list CommunalPayment) : M (list StoredPayment) :=
  match ps with
  | [] => ret []
  | payment :: rest =>
      created_payment <- save_payment payment ;;
      more <- save_all rest ;;
      ret (created_payment :: more)
  end.

(** The body of its second loop. *)
Definition notify (payment : StoredPayment) : M unit :=
  send (PayerNotice payment) (payer_new_communal_payment env payment) ;;;
  ls <- lodgers_all payment ;;
  for_each ls (fun lodger =>
    send (LodgerNotice payment (resident lodger))
         (lodger_new_communal_payment env payment (resident lodger))).

Definition save_payments (self : Service) : M unit :=
  atomic (
    created_payments <- save_all (payments self) ;;
    for_each created_payments notify).

Definition run (self : Service) : M (list exn) :=
  self' <- import_data_from_file self ;;
  save_payments self' ;;;
  ret (errors self').

(* =================================================================== *)
(** *** Vocabulary of the properties *)
(* =================================================================== *)

(** The composite key of a record and of a stored row. *)
Definition key_of (p : CommunalPayment) : Z * Z * datetime * string :=
  (user_pk (payer p), apartment_pk (apartment p), date p, ext_number p).

Definition row_key (r : StoredPayment) : Z * Z * datetime * string :=
  (sp_payer_id r, sp_apartment_id r, sp_date r, sp_ext_number r).

(** How many rows of the table the lookup of [update_or_create] selects. *)
Definition matches (p : CommunalPayment) (table : list StoredPayment) : nat :=
  length (filter (same_key p) table).

(** What [update_or_create] does to a stored row when it updates. *)
Definition updated (p : CommunalPayment) (x : StoredPayment) : StoredPayment :=
  if same_key p x then set_defaults p x else x.

Definition with_table (w : World) (t : list StoredPayment) : World :=
  {| db := with_communal_payments (db w) t; outbox := outbox w;
     sentry := sentry w |}.

Definition with_outbox (w : World) (o : list notification) : World :=
  {| db := db w; outbox := o; sentry := sentry w |}.

(** What the mail service answers to a notification. *)
Definition outcome (n : notification) : option exn :=
  match n with
  | PayerNotice payment => payer_new_communal_payment env payment
  | LodgerNotice payment to => lodger_new_communal_payment env payment to
  end.

Definition post (n : notification) : M unit := send n (outcome n).

(** The notifications of one stored payment, in the order of the loop: the
    payer, then the residents of the lodgers of its apartment. *)
Definition notices (st : Store) (payment : StoredPayment) : list notification :=
  PayerNotice payment
  :: map (fun l => LodgerNotice payment (resident l))
         (filter (fun l => (lodger_apartment_id l =? sp_apartment_id payment)%Z)
                 (lodgers st)).

(** What [build_payment] gives for the lines of [data] from line [i] on,
    the lines before [start_row] left out. *)
Fixpoint row_results (self : Service) (st : Store) (i : nat)
         (data : list (list cell)) : list (result CommunalPayment) :=
  match data with
  | [] => []
  | line :: rest =>
      if i <? start_row then row_results self st (S i) rest
      else build_payment self st line i :: row_results self st (S i) rest
  end.

Fixpoint built {A} (rs : list (result A)) : list A :=
  match rs with
  | [] => []
  | Ok a :: rest => a :: built rest
  | Raise _ :: rest => built rest
  end.

Fixpoint raised {A} (rs : list (result A)) : list exn :=
  match rs with
  | [] => []
  | Ok _ :: rest => raised rest
  | Raise e :: rest => e :: raised rest
  end.

End Service.

(* ===================================================================== *)
(** ** A small installation, for running the code *)
(* ===================================================================== *)

Module Sample.

(** Decimal values as coefficient and exponent, and the plain numerals of
    [Decimal]'s grammar: digits with at most one point and at least one
    digit. ["12.50"] is [1250] with exponent [-2]. *)
Definition dec : Type := (Z * Z)%type.

Fixpoint read_digits (s : string) (acc : Z) (n : nat) : Z * nat * string :=
  match s with
  | String c r =>
      match PyDate.digit_val c with
      | Some v => read_digits r (10 * acc + v)%Z (S n)
      | None => (acc, n, s)
      end
  | EmptyString => (acc, n, s)
  end.

Definition plain_Decimal (s : string) : option dec :=
  let '(i, ni, r) := read_digits s 0%Z 0 in
  match r with
  | EmptyString => if ni =? 0 then None else Some (i, 0%Z)
  | String "." r' =>
      let '(c, nf, r'') := read_digits r' i 0 in
      match r'' with
      | EmptyString =>
          if ni + nf =? 0 then None else Some (c, (- Z.of_nat nf)%Z)
      | _ => None
      end
  | _ => None
  end.

Definition anna : User := mk_User 1 "anna@example.com".
Definition boris : User := mk_User 2 "boris@example.com".
Definition flat : Apartment := mk_Apartment 10 "ACC-1".
Definition euro : Currency := mk_Currency "EUR".

Definition header : list string :=
  ["number"; "month"; "building"; "apartment"; "account"; "email";
   "description"; "price"].

(** A good row, a row with a price that is no number, and a row with an
    account number no apartment has. *)
Definition good_row : list string :=
  ["N-1"; "01-01-2001"; "House 5"; "12"; " ACC-1 "; "Anna@Example.com";
   "Water"; "12,50"].
Definition bad_price_row : list string :=
  ["N-2"; "01-01-2001"; "House 5"; "12"; "ACC-1"; "anna@example.com";
   "Water"; "abc"].
Definition unknown_account_row : list string :=
  ["N-3"; "01-01-2001"; "House 5"; "12"; "ACC-9"; "anna@example.com";
   "Water"; "7.00"].

Definition bad_date_row : list string :=
  ["N-4"; "2001-01-01"; "House 5"; "12"; "ACC-1"; "anna@example.com";
   "Water"; "7.00"].
Definition unknown_email_row : list string :=
  ["N-5"; "01-01-2001"; "House 5"; "12"; "ACC-1"; "carl@example.com";
   "Water"; "7.00"].
Definition short_row : list string := ["N-6"; "01-01-2001"].

(** A sheet whose second row has an empty date cell. *)
Definition empty_date_sheet : sheet :=
  [map CStr header;
   [CStr "N-1"; CNone; CStr "House 5"; CStr "12"; CStr "ACC-1";
    CStr "anna@example.com"; CStr "Water"; COther "12.5" true]].

Definition files_csv (f : file_arg) : result (list (list string)) :=
  match f with
  | Path path =>
      if String.eqb path "payments.csv"
      then Ok [header; good_row; bad_price_row; unknown_account_row]
      else if String.eqb path "one.csv" then Ok [header; good_row]
      else Raise (OtherError "No such file or directory")
  | _ => Raise (OtherError "No such file or directory")
  end.

Definition files_xlsx (f : file_arg) : result workbook :=
  match f with
  | Path path =>
      if String.eqb path "payments.xlsx"
      then Ok (mk_workbook (Some empty_date_sheet))
      else Raise (OtherError "No such file or directory")
  | _ => Raise (OtherError "No such file or directory")
  end.

(** Mail that is always delivered, and mail whose server is down. *)
Definition env : Environment (decimal := dec) :=
  {| Decimal := plain_Decimal; csv_reader := files_csv;
     load_workbook := files_xlsx;
     payer_new_communal_payment := fun _ => None;
     lodger_new_communal_payment := fun _ _ => None |}.

Definition env_mail_down : Environment (decimal := dec) :=
  {| Decimal := plain_Decimal; csv_reader := files_csv;
     load_workbook := files_xlsx;
     payer_new_communal_payment := fun _ => Some (OtherError "Connection refused");
     lodger_new_communal_payment := fun _ _ => None |}.

Definition store0 : Store (decimal := dec) :=
  {| users := [anna; boris]; apartments := [flat];
     lodgers := [mk_Lodger 10 boris]; currencies := [euro];
     communal_payments := [] |}.

Definition world0 : World (decimal := dec) := {| db := store0; outbox := []; sentry := [] |}.

Definition service (f : file_arg) : Service (decimal := dec) :=
  {| file := f; payments := []; errors := []; currency := euro |}.

(** The payment of [good_row], and the same with another price. *)
Definition payment1 : CommunalPayment (decimal := dec) :=
  {| email := "anna@example.com"; payer := anna; account_number := "ACC-1";
     apartment := flat; date := mk_datetime 2001 1 1 0 0 0;
     ext_number := "n-1"; price := (1250, -2)%Z; building := "house 5";
     description := "water"; cp_currency := euro |}.

Definition payment1' : CommunalPayment (decimal := dec) :=
  {| email := "anna@example.com"; payer := anna; account_number := "ACC-1";
     apartment := flat; date := mk_datetime 2001 1 1 0 0 0;
     ext_number := "n-1"; price := (990, -2)%Z; building := "house 5";
     description := "water, corrected"; cp_currency := euro |}.

Definition payment2 : CommunalPayment (decimal := dec) :=
  {| email := "boris@example.com"; payer := boris; account_number := "ACC-1";
     apartment := flat; date := mk_datetime 2001 2 1 0 0 0;
     ext_number := "n-7"; price := (300, 0)%Z; building := "house 5";
     description := "gas"; cp_currency := euro |}.



End Sample.

(* ===================================================================== *)
(** ** Properties *)
(* ===================================================================== *)

(* ===================================================================== *)
(** ** Further vocabulary: rows of a sheet, unique lookups, the last row of
    a key *)
(* ===================================================================== *)

(** The cells [get_data_from_xlsx] takes from a stored row. *)
Definition take_cols (r : list cell) : list cell :=
  map (fun c => nth c r CNone) (seq 0 cols).

Section Uniqueness.

Context {decimal : Type}.

(** No two users share an email, no two apartments an account number, no
    two stored payments a key. *)
Definition emails_unique (st : Store (decimal := decimal)) : Prop :=
  forall em,
    length (filter (fun u => String.eqb (user_email u) em) (users st)) <= 1.

Definition accounts_unique (st : Store (decimal := decimal)) : Prop :=
  forall acc,
    length (filter (fun a => String.eqb (apartment_account_number a) acc)
                   (apartments st)) <= 1.

Definition keys_unique (t : list (StoredPayment (decimal := decimal))) : Prop :=
  forall q : CommunalPayment, matches q t <= 1.

(** Of the records of a run, the last one whose key a stored row has. *)
Definition last_with_key (ps : list (CommunalPayment (decimal := decimal)))
           (r : StoredPayment) : option CommunalPayment :=
  find (fun p => same_key p r) (rev ps).

End Uniqueness.

Module Cases.

(** A workbook without a sheet, and a store where two users have one
    email. *)
Definition env_no_sheet : Environment (decimal := Sample.dec) :=
  {| Decimal := Sample.plain_Decimal; csv_reader := Sample.files_csv;
     load_workbook := fun _ => Ok (mk_workbook None);
     payer_new_communal_payment := fun _ => None;
     lodger_new_communal_payment := fun _ _ => None |}.

Definition anna_again : User := mk_User 3 "anna@example.com".

Definition store_two_annas : Store (decimal := Sample.dec) :=
  {| users := [Sample.anna; Sample.boris; anna_again];
     apartments := [Sample.flat]; lodgers := [mk_Lodger 10 Sample.boris];
     currencies := [Sample.euro]; communal_payments := [] |}.

Definition world_two_annas : World (decimal := Sample.dec) :=
  {| db := store_two_annas; outbox := []; sentry := [] |}.

(** A sheet of a header, a good row with a ninth cell, an empty row and a
    row after it. *)
Definition sheet_with_gap : sheet :=
  [map CStr Sample.header;
   (map CStr Sample.good_row ++ [CStr "note"])%list;
   [CNone; CStr "01-01-2001"];
   map CStr Sample.bad_price_row].

(** A [csv] file that holds its header only. *)
Definition env_header_only : Environment (decimal := Sample.dec) :=
  {| Decimal := Sample.plain_Decimal;
     csv_reader := fun _ => Ok [Sample.header];
     load_workbook := Sample.files_xlsx;
     payer_new_communal_payment := fun _ => None;
     lodger_new_communal_payment := fun _ _ => None |}.

(** A table with a row of [payment2] and a row of [payment1]. *)
Definition world_two_rows : World (decimal := Sample.dec) :=
  with_table Sample.world0
    [created_row Sample.payment2; created_row Sample.payment1].

(** Three records, the first and the last of one key. *)
Definition three_payments : list (CommunalPayment (decimal := Sample.dec)) :=
  [Sample.payment1; Sample.payment2; Sample.payment1'].

(** [good_row] with another apartment label. *)
Definition good_row_other_label : list string :=
  ["N-1"; "01-01-2001"; "House 5"; "flat twelve"; " ACC-1 "; "Anna@Example.com";
   "Water"; "12,50"].

End Cases.

(** *** The string and date helpers on examples *)

Example strip_ex : PyStr.strip "  12,50 " = "12,50".
Proof. reflexivity. Qed.

Example lower_ex : PyStr.lower "A@B.Com" = "a@b.com".
Proof. reflexivity. Qed.

Example split_ex : PyStr.split_last "." "a.b.XLSX" = "XLSX".
Proof. reflexivity. Qed.

Example strptime_ex1 :
  PyDate.strptime_dmY "01-01-2001" = Some (mk_datetime 2001 1 1 0 0 0).
Proof. reflexivity. Qed.

Example strptime_ex2 : PyDate.strptime_dmY "2001-01-01" = None.
Proof. reflexivity. Qed.

Example strptime_ex3 : PyDate.strptime_dmY "29-02-2001" = None.
Proof. reflexivity. Qed.

Example strptime_ex4 :
  PyDate.strptime_dmY "3-1-2024" = Some (mk_datetime 2024 1 3 0 0 0).
Proof. reflexivity. Qed.

Example to_str_ex :
  PyDate.to_str (mk_datetime 2001 1 1 0 0 0) = "2001-01-01 00:00:00".
Proof. reflexivity. Qed.

Section Properties.

Context {decimal : Type} (env : Environment (decimal := decimal)).

(** *** Lookups *)

Lemma objects_get_none {A} (m : model) (cond : A -> bool) (table : list A) :
  (forall x, In x table -> cond x = false) ->
  objects_get m cond table = Raise (DoesNotExist m).
Proof.
  intros Hnone. unfold objects_get.
  replace (filter cond table) with (@nil A); [reflexivity|].
  symmetry. induction table as [|x t IH]; [reflexivity|].
  simpl. rewrite (Hnone x (or_introl eq_refl)).
  apply IH. intros y Hy. apply Hnone. now right.
Qed.

Lemma objects_get_ok {A} (m : model) (cond : A -> bool) (table : list A) (x : A) :
  objects_get m cond table = Ok x -> In x table /\ cond x = true.
Proof.
  unfold objects_get. intros H.
  destruct (filter cond table) as [|y [|z l]] eqn:F; try discriminate.
  injection H as ->.
  apply filter_In. rewrite F. now left.
Qed.

Lemma get_payer_by_email_ok (st : Store (decimal := decimal)) em u :
  get_payer_by_email st em = Ok u -> In u (users st) /\ user_email u = em.
Proof.
  unfold get_payer_by_email. intros H.
  destruct (objects_get MUser _ (users st)) as [x|e] eqn:G.
  - injection H as ->. apply objects_get_ok in G as [Hin Heq].
    split; [exact Hin|]. now apply String.eqb_eq.
  - destruct e as [| | | | | | |[]|[]|]; discriminate.
Qed.

Lemma get_payer_by_email_unknown (st : Store (decimal := decimal)) em :
  (forall u, In u (users st) -> user_email u <> em) ->
  get_payer_by_email st em
  = Raise (ImportPaymentException ("Payer by email = " ++ em ++ " not found")).
Proof.
  intros H. unfold get_payer_by_email.
  rewrite objects_get_none; [reflexivity|].
  intros u Hu. apply String.eqb_neq. now apply H.
Qed.

Lemma get_apartment_by_account_ok (st : Store (decimal := decimal)) acc a :
  get_apartment_by_account st acc = Ok a ->
  In a (apartments st) /\ apartment_account_number a = acc.
Proof.
  unfold get_apartment_by_account. intros H.
  destruct (objects_get MApartment _ (apartments st)) as [x|e] eqn:G.
  - injection H as ->. apply objects_get_ok in G as [Hin Heq].
    split; [exact Hin|]. now apply String.eqb_eq.
  - destruct e as [| | | | | | |[]|[]|]; discriminate.
Qed.

Lemma get_apartment_by_account_unknown (st : Store (decimal := decimal)) acc :
  (forall a, In a (apartments st) -> apartment_account_number a <> acc) ->
  get_apartment_by_account st acc
  = Raise (ImportPaymentException
             ("Apartment by account number #" ++ acc ++ " not found")).
Proof.
  intros H. unfold get_apartment_by_account.
  rewrite objects_get_none; [reflexivity|].
  intros a Ha. apply String.eqb_neq. now apply H.
Qed.

(** *** [build_payment] *)

Lemma length_cols (line : list cell) :
  length line = cols -> negb (length line =? cols) = false.
Proof. intros ->. reflexivity. Qed.

Lemma length_not_cols (line : list cell) :
  length line <> cols -> negb (length line =? cols) = true.
Proof. intros H. apply negb_true_iff. now apply Nat.eqb_neq. Qed.

(** Claim C3. The checks of [build_payment] come in a fixed order and the
    first that fails decides the exception: the number of columns, then the price,
    then the date, then the payer, then the apartment; a row that passes
    all five gives the record. *)
Theorem build_payment_validation_order
        (self : Service) (st : Store) (line : list cell) (i : nat) :
  let price_str := price_text (item line col_price) in
  let em := PyStr.lower (PyStr.strip (py_str (item line col_email))) in
  let acc := PyStr.strip (py_str (item line col_account_number)) in
  (length line <> cols ->
   build_payment env self st line i
   = Raise (ParseFileError (columns_message i (length line))))
  /\ (length line = cols -> Decimal env price_str = None ->
      build_payment env self st line i
      = Raise (ParseFileError (price_message price_str)))
  /\ (forall pr s,
        length line = cols -> Decimal env price_str = Some pr ->
        item line col_month = CStr s ->
        PyDate.strptime_dmY (PyStr.lower (PyStr.strip s)) = None ->
        build_payment env self st line i
        = Raise (ParseFileError (month_message s)))
  /\ (forall pr d,
        length line = cols -> Decimal env price_str = Some pr ->
        parse_month (item line col_month) = Ok d ->
        (forall u, In u (users st) -> user_email u <> em) ->
        build_payment env self st line i
        = Raise (ImportPaymentException
                   ("Payer by email = " ++ em ++ " not found")))
  /\ (forall pr d u,
        length line = cols -> Decimal env price_str = Some pr ->
        parse_month (item line col_month) = Ok d ->
        get_payer_by_email st em = Ok u ->
        (forall a, In a (apartments st) -> apartment_account_number a <> acc) ->
        build_payment env self st line i
        = Raise (ImportPaymentException
                   ("Apartment by account number #" ++ acc ++ " not found")))
  /\ (forall pr d u a,
        length line = cols -> Decimal env price_str = Some pr ->
        parse_month (item line col_month) = Ok d ->
        get_payer_by_email st em = Ok u ->
        get_apartment_by_account st acc = Ok a ->
        exists p, build_payment env self st line i = Ok p
                  /\ payer p = u /\ apartment p = a
                  /\ price p = pr /\ date p = d).
Proof.
  cbv zeta. unfold build_payment.
  repeat split.
  - intros H. now rewrite (length_not_cols _ H).
  - intros H Hp. now rewrite (length_cols _ H), Hp.
  - intros pr s H Hp Hs Hd. rewrite (length_cols _ H), Hp, Hs.
    simpl. now rewrite Hd.
  - intros pr d H Hp Hd Hu. rewrite (length_cols _ H), Hp, Hd.
    simpl. unfold new_CommunalPayment.
    now rewrite (get_payer_by_email_unknown _ _ Hu).
  - intros pr d u H Hp Hd Hu Ha. rewrite (length_cols _ H), Hp, Hd.
    simpl. unfold new_CommunalPayment. rewrite Hu. simpl.
    now rewrite (get_apartment_by_account_unknown _ _ Ha).
  - intros pr d u a H Hp Hd Hu Ha. rewrite (length_cols _ H), Hp, Hd.
    simpl. unfold new_CommunalPayment. rewrite Hu, Ha. simpl.
    eexists. split; [reflexivity|]. now simpl.
Qed.

(** Claim C4. A record is built only with a payer and an apartment found in the
    store by exact match, the payer on the trimmed, lower-cased email cell
    and the apartment on the trimmed account cell; when the payer is not
    found the constructor raises an [ImportPaymentException] with the
    email, and when the payer is found and the apartment is not, one with
    the account number: no record comes out. *)
Theorem CommunalPayment_references_resolve
        (self : Service) (st : Store) (line : list cell) (i : nat) :
  (forall p,
      build_payment env self st line i = Ok p ->
      In (payer p) (users st)
      /\ user_email (payer p)
         = PyStr.lower (PyStr.strip (py_str (item line col_email)))
      /\ In (apartment p) (apartments st)
      /\ apartment_account_number (apartment p)
         = PyStr.strip (py_str (item line col_account_number)))
  /\ (forall em acc d ext pr descr b c,
        (forall u, In u (users st) -> user_email u <> em) ->
        new_CommunalPayment st em acc d ext pr descr b c
        = Raise (ImportPaymentException
                   ("Payer by email = " ++ em ++ " not found")))
  /\ (forall em acc d ext (pr : decimal) descr b c u,
        get_payer_by_email st em = Ok u ->
        (forall a, In a (apartments st) -> apartment_account_number a <> acc) ->
        new_CommunalPayment st em acc d ext pr descr b c
        = Raise (ImportPaymentException
                   ("Apartment by account number #" ++ acc ++ " not found"))).
Proof.
  split; [|split].
  - intros p H. unfold build_payment in H.
    destruct (negb (length line =? cols)); [discriminate|].
    destruct (Decimal env _) as [pr|]; [|discriminate].
    destruct (parse_month _) as [d|]; [|discriminate].
    simpl in H. unfold new_CommunalPayment in H.
    destruct (get_payer_by_email st _) as [u|] eqn:Hu; [|discriminate].
    destruct (get_apartment_by_account st _) as [ap|] eqn:Ha; [|discriminate].
    simpl in H. injection H as <-. simpl.
    apply get_payer_by_email_ok in Hu.
    apply get_apartment_by_account_ok in Ha. tauto.
  - intros em acc d ext pr descr b c Hu. unfold new_CommunalPayment.
    now rewrite (get_payer_by_email_unknown _ _ Hu).
  - intros em acc d ext pr descr b c u Hu Ha. unfold new_CommunalPayment.
    rewrite Hu. simpl. now rewrite (get_apartment_by_account_unknown _ _ Ha).
Qed.

(** Claim C5. On a row of eight cells the price cell is turned into text,
    trimmed, its commas made points, and given to [Decimal]. When [Decimal]
    refuses the text the row raises a [ParseFileError] with that text and
    the hint ['00.00']. When [Decimal] accepts it the price check is passed:
    the row does not raise the price error, it goes on to the date and the
    constructor with the parsed value, and a row whose date and references
    are good gives a record with that value as its price; a record that is
    built carries the parsed value. Two rows that differ in the price cell
    only, with the same text after trimming and replacing, give the same
    result, and ["12,50"] and ["12.50"] are such texts. *)
Theorem build_payment_price
        (self : Service) (st : Store) (line : list cell) (i : nat) :
  length line = cols ->
  let price_str :=
    PyStr.replace "," "." (PyStr.strip (py_str (item line col_price))) in
  (Decimal env price_str = None ->
   build_payment env self st line i
   = Raise (ParseFileError
              ("Invalid price value format: got=" ++ price_str
               ++ " expected='00.00'")))
  /\ (forall p, build_payment env self st line i = Ok p ->
                Decimal env price_str = Some (price p))
  /\ (forall pr,
        Decimal env price_str = Some pr ->
        build_payment env self st line i
        = (let* date := parse_month (item line col_month) in
           new_CommunalPayment st
             (PyStr.lower (PyStr.strip (py_str (item line col_email))))
             (PyStr.strip (py_str (item line col_account_number)))
             date
             (PyStr.lower (PyStr.strip (py_str (item line col_ext_number))))
             pr
             (PyStr.lower (PyStr.strip (py_str (item line col_description))))
             (PyStr.lower (PyStr.strip (py_str (item line col_building))))
             (currency self))
        /\ forall got,
             build_payment env self st line i
             <> Raise (ParseFileError
                         ("Invalid price value format: got=" ++ got
                          ++ " expected='00.00'")))
  /\ (forall pr d u a,
        Decimal env price_str = Some pr ->
        parse_month (item line col_month) = Ok d ->
        get_payer_by_email st
          (PyStr.lower (PyStr.strip (py_str (item line col_email)))) = Ok u ->
        get_apartment_by_account st
          (PyStr.strip (py_str (item line col_account_number))) = Ok a ->
        exists p, build_payment env self st line i = Ok p /\ price p = pr)
  /\ (forall line' j,
        length line' = cols ->
        (forall k, k <> col_price -> item line' k = item line k) ->
        price_text (item line' col_price) = price_text (item line col_price) ->
        build_payment env self st line' j = build_payment env self st line i)
  /\ price_text (CStr "12,50") = price_text (CStr "12.50")
  /\ Decimal env (price_text (CStr "12,50"))
     = Decimal env (price_text (CStr "12.50")).
Proof.
  intros Hlen price_str.
  assert (Hstep : forall pr,
             Decimal env price_str = Some pr ->
             build_payment env self st line i
             = (let* date := parse_month (item line col_month) in
                new_CommunalPayment st
                  (PyStr.lower (PyStr.strip (py_str (item line col_email))))
                  (PyStr.strip (py_str (item line col_account_number)))
                  date
                  (PyStr.lower (PyStr.strip (py_str (item line col_ext_number))))
                  pr
                  (PyStr.lower (PyStr.strip (py_str (item line col_description))))
                  (PyStr.lower (PyStr.strip (py_str (item line col_building))))
                  (currency self))).
  { intros pr Hp. unfold build_payment.
    rewrite (length_cols _ Hlen). unfold price_text. fold price_str.
    now rewrite Hp. }
  split; [|split; [|split; [|split; [|split; [|split; reflexivity]]]]].
  - intros Hp. unfold build_payment.
    rewrite (length_cols _ Hlen). unfold price_text.
    fold price_str. now rewrite Hp.
  - intros p H. unfold build_payment in H.
    rewrite (length_cols _ Hlen) in H. unfold price_text in H.
    fold price_str in H.
    destruct (Decimal env price_str) as [pr|]; [|discriminate].
    destruct (parse_month _); [|discriminate].
    simpl in H. unfold new_CommunalPayment in H.
    destruct (get_payer_by_email st _); [|discriminate].
    destruct (get_apartment_by_account st _); [|discriminate].
    simpl in H. now injection H as <-.
  - intros pr Hp. split; [now apply Hstep|].
    intros got Hb. rewrite (Hstep pr Hp) in Hb.
    destruct (parse_month (item line col_month)) as [d|e] eqn:Hd; simpl in Hb.
    + unfold new_CommunalPayment, get_payer_by_email,
        get_apartment_by_account, objects_get in Hb.
      destruct (filter _ (users st)) as [|u [|u' lu]]; simpl in Hb;
        try discriminate Hb.
      destruct (filter _ (apartments st)) as [|a [|a' la]]; simpl in Hb;
        discriminate Hb.
    + injection Hb as ->.
      destruct (item line col_month) as [s|d| |r b]; simpl in Hd;
        try discriminate Hd.
      destruct (PyDate.strptime_dmY _); discriminate Hd.
  - intros pr d u a Hp Hd Hu Ha. rewrite (Hstep pr Hp), Hd. simpl.
    unfold new_CommunalPayment. rewrite Hu, Ha. simpl.
    eexists. split; reflexivity.
  - intros line' j Hlen' Hk Hpt. unfold build_payment.
    rewrite Hlen, Hlen', Hpt.
    rewrite (Hk col_month), (Hk col_email), (Hk col_account_number),
      (Hk col_ext_number), (Hk col_description), (Hk col_building);
      try discriminate.
    reflexivity.
Qed.

(** *** The date cell *)

Lemma parse_month_datetime (d : datetime) : parse_month (CDateTime d) = Ok d.
Proof. reflexivity. Qed.

Lemma parse_month_text (s : string) :
  parse_month (CStr s)
  = match PyDate.strptime_dmY (PyStr.lower (PyStr.strip s)) with
    | Some d => Ok d
    | None =>
        Raise (ParseFileError
                 ("Invalid month value format: got=" ++ s
                  ++ " expected='01-01-2001'"))
    end.
Proof. reflexivity. Qed.

Lemma parse_month_day_first :
  parse_month (CStr "01-01-2001") = Ok (mk_datetime 2001 1 1 0 0 0).
Proof. reflexivity. Qed.

Lemma parse_month_year_first :
  parse_month (CStr "2001-01-01")
  = Raise (ParseFileError
             "Invalid month value format: got=2001-01-01 expected='01-01-2001'").
Proof. reflexivity. Qed.

(** A cell that is neither text nor a [datetime] is not turned into text:
    the call of [strip] fails on it. *)
Lemma parse_month_not_text (v : cell) :
  (forall s, v <> CStr s) -> (forall d, v <> CDateTime d) ->
  exists msg, parse_month v = Raise (AttributeError msg).
Proof.
  intros Hs Hd. destruct v as [s|d| |r b]; simpl.
  - now destruct (Hs s).
  - now destruct (Hd d).
  - eexists; reflexivity.
  - eexists; reflexivity.
Qed.

(** *** The file *)

(** Claim C10. With a [file] that is neither a path nor an uploaded file the [try]
    block ends without an exception and without binding [data]; nothing
    is added to the errors or handed to [capture_exception], and the loop
    over [data] raises [UnboundLocalError], which [run] lets through. *)
Theorem run_other_object_unbound
        (ps : list CommunalPayment) (es : list exn) (c : Currency) (w : World) :
  let self := {| file := OtherObject; payments := ps; errors := es;
                 currency := c |} in
  load_data env self = Ok None
  /\ import_data_from_file env self w = (Raise (UnboundLocalError "data"), w)
  /\ run env self w = (Raise (UnboundLocalError "data"), w).
Proof. repeat split. Qed.

Lemma func_unsupported (self : Service) (ext : string) :
  ext <> "csv" -> ext <> "xlsx" -> func env self ext = Raise (KeyError ext).
Proof.
  intros H1 H2. unfold func.
  apply String.eqb_neq in H1, H2. now rewrite H1, H2.
Qed.

(** Claim C7. For a path or an uploaded file whose extension, in lower case, is
    neither [csv] nor [xlsx], a run of a new service returns one error, a
    [FileTypeError]; the store and the outbox are as before, and no reader
    is called. *)
Theorem run_unsupported_extension (self : Service) (name : string) (w : World) :
  file self = Path name \/ file self = InMemoryUploadedFile name ->
  extension name <> "csv" -> extension name <> "xlsx" ->
  payments self = [] -> errors self = [] ->
  exists e,
    is_FileTypeError e = true
    /\ run env self w
       = (Ok [e], {| db := db w; outbox := outbox w;
                     sentry := (sentry w ++ [KeyError (extension name)])%list |})
    /\ load_data env self = Raise (KeyError (extension name)).
Proof.
  intros Hf H1 H2 Hp He.
  exists (FileTypeError (KeyError (extension name))).
  assert (Hl : load_data env self = Raise (KeyError (extension name))).
  { unfold load_data.
    destruct Hf as [-> | ->]; now rewrite (func_unsupported _ _ H1 H2). }
  repeat split; [|exact Hl].
  unfold run, import_data_from_file. rewrite Hl.
  unfold bind, capture_exception, ret, save_payments, atomic, append_error.
  simpl. rewrite Hp, He. reflexivity.
Qed.

(** *** The table of payments *)

Local Abbreviation table w := (communal_payments (db w)).

Lemma datetime_eqb_eq (a b : datetime) : datetime_eqb a b = true <-> a = b.
Proof.
  unfold datetime_eqb. destruct a, b; simpl.
  rewrite !andb_true_iff, !Z.eqb_eq. split.
  - intros [[[[[-> ->] ->] ->] ->] ->]. reflexivity.
  - intros H. injection H as -> -> -> -> -> ->. tauto.
Qed.

Lemma same_key_spec (p : CommunalPayment) (r : StoredPayment (decimal := decimal)) :
  same_key p r = true <-> row_key r = key_of p.
Proof.
  unfold same_key, row_key, key_of.
  rewrite !andb_true_iff, !Z.eqb_eq, datetime_eqb_eq, String.eqb_eq. split.
  - intros [[[-> ->] ->] ->]. reflexivity.
  - intros H. injection H as -> -> -> ->. tauto.
Qed.

Lemma same_key_row_key (p : CommunalPayment) (r r' : StoredPayment (decimal := decimal)) :
  row_key r = row_key r' -> same_key p r = same_key p r'.
Proof.
  intros H. destruct (same_key p r') eqn:E.
  - apply same_key_spec. rewrite H. now apply same_key_spec.
  - destruct (same_key p r) eqn:E'; [|reflexivity].
    apply same_key_spec in E'. rewrite H in E'.
    apply same_key_spec in E'. congruence.
Qed.

Lemma same_key_key_of (p q : CommunalPayment) (r : StoredPayment (decimal := decimal)) :
  key_of p = key_of q -> same_key p r = same_key q r.
Proof.
  intros H. destruct (same_key q r) eqn:E.
  - apply same_key_spec. rewrite H. now apply same_key_spec.
  - destruct (same_key p r) eqn:E'; [|reflexivity].
    apply same_key_spec in E'. rewrite H in E'.
    apply same_key_spec in E'. congruence.
Qed.

Lemma matches_key_of (p q : CommunalPayment (decimal := decimal)) t :
  key_of p = key_of q -> matches p t = matches q t.
Proof.
  intros H. unfold matches. f_equal. apply filter_ext.
  intros r. now apply same_key_key_of.
Qed.

Lemma row_key_created (p : CommunalPayment (decimal := decimal)) :
  row_key (created_row p) = key_of p.
Proof. reflexivity. Qed.

Lemma same_key_created (p q : CommunalPayment (decimal := decimal)) :
  same_key q (created_row p) = true <-> key_of p = key_of q.
Proof. rewrite same_key_spec. now rewrite row_key_created. Qed.

(** A row the lookup selects becomes, with the defaults set, the row the
    record would create. *)
Lemma set_defaults_created (p : CommunalPayment) (r : StoredPayment (decimal := decimal)) :
  same_key p r = true -> set_defaults p r = created_row p.
Proof.
  intros H. apply same_key_spec in H. unfold row_key, key_of in H.
  injection H as H1 H2 H3 H4. unfold set_defaults, created_row.
  now rewrite H1, H2, H3, H4.
Qed.

Lemma row_key_updated (p : CommunalPayment) (x : StoredPayment (decimal := decimal)) :
  row_key (updated p x) = row_key x.
Proof. unfold updated. now destruct (same_key p x). Qed.

Lemma matches_app (q : CommunalPayment (decimal := decimal)) t x :
  matches q (t ++ [x]) = matches q t + (if same_key q x then 1 else 0).
Proof.
  unfold matches. rewrite filter_app, length_app. simpl.
  now destruct (same_key q x).
Qed.

Lemma matches_updated (p q : CommunalPayment (decimal := decimal)) t :
  matches q (map (updated p) t) = matches q t.
Proof.
  unfold matches. induction t as [|x t IH]; [reflexivity|].
  simpl. rewrite (same_key_row_key q _ _ (row_key_updated p x)).
  destruct (same_key q x); simpl; now rewrite IH.
Qed.

(** The three cases of [update_or_create]. *)
Lemma update_or_create_cases (p : CommunalPayment (decimal := decimal)) t :
  (matches p t = 0
   /\ update_or_create p t = Ok (created_row p, true, (t ++ [created_row p])%list))
  \/ (matches p t = 1
      /\ update_or_create p t = Ok (created_row p, false, map (updated p) t))
  \/ (2 <= matches p t
      /\ update_or_create p t = Raise (MultipleObjectsReturned MCommunalPayment)).
Proof.
  unfold update_or_create, objects_get, matches.
  destruct (filter (same_key p) t) as [|r [|r' l]] eqn:F; simpl.
  - left. now split.
  - right; left. split; [reflexivity|].
    assert (Hr : same_key p r = true).
    { apply (proj1 (filter_In (same_key p) r t)). rewrite F. now left. }
    now rewrite (set_defaults_created _ _ Hr).
  - right; right. split; [lia|reflexivity].
Qed.

Lemma save_payment_cases (p : CommunalPayment (decimal := decimal)) w :
  (matches p (table w) = 0
   /\ save_payment p w
      = (Ok (created_row p), with_table w (table w ++ [created_row p])%list))
  \/ (matches p (table w) = 1
      /\ save_payment p w
         = (Ok (created_row p), with_table w (map (updated p) (table w))))
  \/ (2 <= matches p (table w)
      /\ save_payment p w = (Raise (MultipleObjectsReturned MCommunalPayment), w)).
Proof.
  unfold save_payment.
  destruct (update_or_create_cases p (table w)) as [[H E]|[[H E]|[H E]]];
    rewrite E; tauto.
Qed.

(** What a successful [save_payment] leaves: the row of the record, a
    table that differs only in the payments, and for every key the number
    of its rows, one more only for the key of a created row. *)
Lemma save_payment_ok (p : CommunalPayment (decimal := decimal)) w r w1 :
  save_payment p w = (Ok r, w1) ->
  r = created_row p
  /\ w1 = with_table w (table w1)
  /\ matches p (table w) <= 1
  /\ length (table w1)
     = length (table w) + (if matches p (table w) =? 0 then 1 else 0)
  /\ (forall q, matches q (table w1)
                = matches q (table w)
                  + (if (matches p (table w) =? 0) && same_key q (created_row p)
                     then 1 else 0))
  /\ In (created_row p) (table w1).
Proof.
  intros H.
  destruct (save_payment_cases p w) as [[M E]|[[M E]|[M E]]];
    rewrite E in H; [| |discriminate]; injection H as <- <-; rewrite M; simpl.
  - repeat split; try lia.
    + now rewrite length_app.
    + intros q. now rewrite matches_app.
    + apply in_or_app. right. now left.
  - repeat split; try lia.
    + rewrite length_map. lia.
    + intros q. rewrite matches_updated. lia.
    + unfold matches in M.
      destruct (filter (same_key p) (table w)) as [|x l] eqn:F; [discriminate|].
      assert (Hx : In x (table w) /\ same_key p x = true).
      { apply filter_In. rewrite F. now left. }
      destruct Hx as [Hin Hk].
      apply in_map_iff. exists x. split; [|exact Hin].
      unfold updated. rewrite Hk. now apply set_defaults_created.
Qed.

Lemma matches_after_save (p : CommunalPayment (decimal := decimal)) w r w1 :
  save_payment p w = (Ok r, w1) -> matches p (table w1) = 1.
Proof.
  intros H. destruct (save_payment_ok _ _ _ _ H) as (_ & _ & Hle & _ & Hq & _).
  rewrite Hq.
  assert (Hs : same_key p (created_row p) = true) by now apply same_key_created.
  rewrite Hs, andb_true_r.
  destruct (matches p (table w)) as [|[|n]]; simpl; lia.
Qed.

Lemma with_table_table (w : World (decimal := decimal)) : with_table w (table w) = w.
Proof. now destruct w as [[] ? ?]. Qed.

Lemma with_table_twice (w : World (decimal := decimal)) t t' :
  with_table (with_table w t) t' = with_table w t'.
Proof. reflexivity. Qed.

Lemma save_payment_frame (p : CommunalPayment (decimal := decimal)) w r w1 :
  save_payment p w = (r, w1) -> w1 = with_table w (table w1).
Proof.
  intros H.
  destruct (save_payment_cases p w) as [[_ E]|[[_ E]|[_ E]]];
    rewrite E in H; injection H as <- <-; simpl;
    now rewrite ?with_table_twice, ?with_table_table.
Qed.

Lemma step_matches_le (p q : CommunalPayment (decimal := decimal)) w r w1 :
  save_payment p w = (Ok r, w1) ->
  matches q (table w) <= 1 -> matches q (table w1) <= 1.
Proof.
  intros H Hq. destruct (save_payment_ok _ _ _ _ H) as (_ & _ & _ & _ & Hm & _).
  rewrite Hm.
  destruct (matches p (table w) =? 0) eqn:E0; simpl; [|lia].
  destruct (same_key q (created_row p)) eqn:Ek; [|lia].
  apply same_key_created in Ek. apply Nat.eqb_eq in E0.
  rewrite <- (matches_key_of _ _ (table w) Ek). lia.
Qed.

Lemma step_matches_kept (p q : CommunalPayment (decimal := decimal)) w r w1 :
  save_payment p w = (Ok r, w1) ->
  1 <= matches q (table w) -> matches q (table w1) = matches q (table w).
Proof.
  intros H Hq. destruct (save_payment_ok _ _ _ _ H) as (_ & _ & _ & _ & Hm & _).
  rewrite Hm.
  destruct (matches p (table w) =? 0) eqn:E0; simpl; [|lia].
  destruct (same_key q (created_row p)) eqn:Ek; [|lia].
  apply same_key_created in Ek. apply Nat.eqb_eq in E0.
  rewrite (matches_key_of _ _ (table w) Ek) in E0. lia.
Qed.

(** *** The first loop of [save_payments] *)

Lemma save_all_cons (p : CommunalPayment (decimal := decimal)) rest w :
  save_all (p :: rest) w
  = match save_payment p w with
    | (Ok r, w0) =>
        match save_all rest w0 with
        | (Ok more, w1) => (Ok (r :: more), w1)
        | (Raise e, w1) => (Raise e, w1)
        end
    | (Raise e, w0) => (Raise e, w0)
    end.
Proof.
  simpl. unfold bind, ret.
  destruct (save_payment p w) as [[r|e] w0]; [|reflexivity].
  now destruct (save_all rest w0) as [[more|e] w1].
Qed.

(** The loop only touches the table of payments. *)
Lemma save_all_frame (ps : list (CommunalPayment (decimal := decimal))) :
  forall w r w1, save_all ps w = (r, w1) -> w1 = with_table w (table w1).
Proof.
  induction ps as [|p rest IH]; intros w r w1 H.
  - injection H as <- <-. now rewrite with_table_table.
  - rewrite save_all_cons in H.
    destruct (save_payment p w) as [[r0|e] w0] eqn:E.
    + apply save_payment_frame in E.
      destruct (save_all rest w0) as [[more|e] w2] eqn:E2;
        apply IH in E2; injection H as <- <-;
        rewrite E2, E; now rewrite with_table_twice.
    + injection H as <- <-. now apply save_payment_frame in E.
Qed.

(** After a loop that went through, every record has its one row, keys that
    had rows have as many as before, and the rows are those the records
    describe. *)
Lemma save_all_ok (ps : list (CommunalPayment (decimal := decimal))) :
  forall w created w1,
    save_all ps w = (Ok created, w1) ->
    created = map created_row ps
    /\ (forall p, In p ps -> matches p (table w1) = 1)
    /\ (forall q, 1 <= matches q (table w) ->
                  matches q (table w1) = matches q (table w))
    /\ ((forall p, In p ps -> 1 <= matches p (table w)) ->
        length (table w1) = length (table w)).
Proof.
  induction ps as [|p rest IH]; intros w created w1 H.
  - injection H as <- <-. repeat split; try easy.
  - rewrite save_all_cons in H.
    destruct (save_payment p w) as [[r0|e] w0] eqn:E; [|discriminate].
    destruct (save_all rest w0) as [[more|e] w2] eqn:E2; [|discriminate].
    injection H as <- <-.
    destruct (IH _ _ _ E2) as (Hc & Hone & Hkept & Hlen).
    destruct (save_payment_ok _ _ _ _ E) as (Hr & _ & _ & Hl & _ & _).
    split; [|split; [|split]].
    + simpl. now rewrite Hr, Hc.
    + intros q [<-|Hq]; [|now apply Hone].
      pose proof (matches_after_save _ _ _ _ E) as H1.
      rewrite Hkept; lia.
    + intros q Hq.
      pose proof (step_matches_kept _ q _ _ _ E Hq) as H0.
      rewrite Hkept; lia.
    + intros Hall.
      assert (Hp : 1 <= matches p (table w)) by (apply Hall; now left).
      rewrite Hlen.
      * rewrite Hl. destruct (matches p (table w)); [lia|simpl; lia].
      * intros q Hq.
        rewrite (step_matches_kept _ q _ _ _ E); apply Hall; now right.
Qed.

(** The loop goes through when no key of its records has two rows. *)
Lemma save_all_succeeds (ps : list (CommunalPayment (decimal := decimal))) :
  forall w,
    (forall p, In p ps -> matches p (table w) <= 1) ->
    exists w1, save_all ps w = (Ok (map created_row ps), w1).
Proof.
  induction ps as [|p rest IH]; intros w Hall.
  - exists w. reflexivity.
  - rewrite save_all_cons.
    assert (Hp : matches p (table w) <= 1) by (apply Hall; now left).
    destruct (save_payment_cases p w) as [[M E]|[[M E]|[M E]]]; [| |lia].
    all: destruct (IH (snd (save_payment p w))) as [w1 H1];
      [ intros q Hq; rewrite E; simpl;
        apply (step_matches_le p q w _ _ E); apply Hall; now right
      | rewrite E in *; simpl in H1; rewrite H1; now exists w1 ].
Qed.

(** *** The second loop of [save_payments] *)

Lemma for_each_app {A} (l1 l2 : list A) (f : A -> M (decimal := decimal) unit) w :
  for_each (l1 ++ l2) f w = bind (for_each l1 f) (fun _ => for_each l2 f) w.
Proof.
  revert w. induction l1 as [|x l IH]; intros w; [reflexivity|].
  simpl. unfold bind in *.
  destruct (f x w) as [[u|e] w0]; [|reflexivity]. apply IH.
Qed.

Lemma for_each_map {A B} (g : A -> B) (l : list A)
      (f : B -> M (decimal := decimal) unit) w :
  for_each (map g l) f w = for_each l (fun a => f (g a)) w.
Proof.
  revert w. induction l as [|x l IH]; intros w; [reflexivity|].
  simpl. unfold bind.
  destruct (f (g x) w) as [[u|e] w0]; [|reflexivity]. apply IH.
Qed.

Lemma with_outbox_app (w : World (decimal := decimal)) a l :
  with_outbox (with_outbox w (outbox w ++ [a])) (outbox w ++ [a] ++ l)
  = with_outbox w (outbox w ++ a :: l).
Proof. reflexivity. Qed.

Lemma post_all_delivered (l : list notification) :
  forall w,
    (forall n, In n l -> outcome env n = None) ->
    for_each l (post env) w = (Ok tt, with_outbox w (outbox w ++ l)).
Proof.
  induction l as [|a l IH]; intros w Hall.
  - simpl. unfold ret, with_outbox. rewrite app_nil_r. now destruct w.
  - simpl. unfold bind, post at 1, send.
    rewrite (Hall a (or_introl eq_refl)).
    rewrite IH by (intros n Hn; apply Hall; now right).
    simpl. unfold with_outbox. simpl. now rewrite <- app_assoc.
Qed.

Lemma post_first_failure (l1 l2 : list notification) n e w :
  (forall m, In m l1 -> outcome env m = None) ->
  outcome env n = Some e ->
  for_each (l1 ++ n :: l2) (post env) w
  = (Raise e, with_outbox w (outbox w ++ l1)).
Proof.
  intros Hall Hn. rewrite for_each_app. unfold bind.
  rewrite (post_all_delivered l1 w Hall). simpl.
  unfold bind, post at 1, send. now rewrite Hn.
Qed.

(** A list of notifications is all delivered, or has a first one that
    fails. *)
Lemma delivered_or_failure (l : list (notification (decimal := decimal))) :
  (forall n, In n l -> outcome env n = None)
  \/ exists l1 n l2 e,
       l = (l1 ++ n :: l2)%list
       /\ (forall m, In m l1 -> outcome env m = None)
       /\ outcome env n = Some e.
Proof.
  induction l as [|a l IH].
  - left. intros n [].
  - destruct (outcome env a) as [e|] eqn:Ea.
    + right. exists [], a, l, e. repeat split; [intros m []|exact Ea].
    + destruct IH as [Hall|(l1 & n & l2 & e & -> & Hall & Hn)].
      * left. intros n [<-|Hn]; [exact Ea|now apply Hall].
      * right. exists (a :: l1), n, l2, e. repeat split; [|exact Hn].
        intros m [<-|Hm]; [exact Ea|now apply Hall].
Qed.

Lemma notify_posts (payment : StoredPayment (decimal := decimal)) w :
  notify env payment w = for_each (notices (db w) payment) (post env) w.
Proof.
  unfold notify, notices. simpl. unfold bind, post at 1. simpl.
  unfold send at 1.
  destruct (payer_new_communal_payment env payment); [reflexivity|].
  unfold lodgers_all. simpl. now rewrite for_each_map.
Qed.

Lemma notify_all_posts (created : list (StoredPayment (decimal := decimal))) :
  forall w,
    for_each created (notify env) w
    = for_each (flat_map (notices (db w)) created) (post env) w.
Proof.
  induction created as [|r rest IH]; intros w; [reflexivity|].
  change (flat_map (notices (db w)) (r :: rest))
    with (notices (db w) r ++ flat_map (notices (db w)) rest)%list.
  rewrite for_each_app.
  change (for_each (r :: rest) (notify env) w)
    with (bind (notify env r) (fun _ => for_each rest (notify env)) w).
  unfold bind. rewrite notify_posts.
  destruct (delivered_or_failure (notices (db w) r))
    as [Hall|(l1 & n & l2 & e & Hl & Hall & Hn)].
  - rewrite (post_all_delivered _ w Hall). cbv iota beta.
    exact (IH (with_outbox w (outbox w ++ notices (db w) r))).
  - rewrite Hl. now rewrite (post_first_failure l1 l2 n e w Hall Hn).
Qed.

(** [save_payments], loop by loop: a failure of the first loop leaves the
    world as it was; after the first loop the notifications are posted in
    order, and a failure there puts the store back. *)
Lemma save_payments_unfold (self : Service (decimal := decimal)) w :
  save_payments env self w
  = match save_all (payments self) w with
    | (Raise e, _) => (Raise e, w)
    | (Ok created, w1) =>
        match for_each (flat_map (notices (db w1)) created) (post env) w1 with
        | (Ok u, w2) => (Ok u, w2)
        | (Raise e, w2) => (Raise e, with_outbox w (outbox w2))
        end
    end.
Proof.
  unfold save_payments, atomic, bind.
  destruct (save_all (payments self) w) as [[created|e] w1] eqn:E.
  - rewrite notify_all_posts.
    pose proof (save_all_frame _ _ _ _ E) as Hw.
    destruct (delivered_or_failure (flat_map (notices (db w1)) created))
      as [Hall|(l1 & n & l2 & e & Hl & Hall & Hn)].
    + now rewrite (post_all_delivered _ w1 Hall).
    + rewrite Hl, (post_first_failure l1 l2 n e w1 Hall Hn).
      rewrite Hw. reflexivity.
  - pose proof (save_all_frame _ _ _ _ E) as Hw. rewrite Hw. simpl.
    now destruct w.
Qed.

Lemma post_all_frame (l : list (notification (decimal := decimal))) w r w2 :
  for_each l (post env) w = (r, w2) ->
  db w2 = db w /\ sentry w2 = sentry w.
Proof.
  destruct (delivered_or_failure l) as [Hall|(l1 & n & l2 & e & -> & Hall & Hn)].
  - rewrite (post_all_delivered _ w Hall). now intros [= <- <-].
  - rewrite (post_first_failure l1 l2 n e w Hall Hn). now intros [= <- <-].
Qed.

Lemma post_all_ok (l : list (notification (decimal := decimal))) w u w2 :
  for_each l (post env) w = (Ok u, w2) ->
  (forall n, In n l -> outcome env n = None)
  /\ w2 = with_outbox w (outbox w ++ l).
Proof.
  destruct (delivered_or_failure l) as [Hall|(l1 & n & l2 & e & -> & Hall & Hn)].
  - rewrite (post_all_delivered _ w Hall). now intros [= <- <-].
  - now rewrite (post_first_failure l1 l2 n e w Hall Hn).
Qed.

Lemma matches_pos_in (p : CommunalPayment (decimal := decimal)) t :
  1 <= matches p t -> exists r, In r t /\ same_key p r = true.
Proof.
  unfold matches. intros H.
  destruct (filter (same_key p) t) as [|r l] eqn:F; [simpl in H; lia|].
  exists r. apply filter_In. rewrite F. now left.
Qed.

(** *** The transaction *)


(** Claim C1, amended. The notifications are sent inside the transaction, after the upsert of
    the last record and before the commit: for each stored payment in order
    the payer's, then one for each lodger of its apartment. When all are
    delivered the store is the one the upserts left; when one fails, its
    exception leaves [save_payments], the store is put back as it was before
    the upserts, and the notifications sent before it stay sent. *)
Theorem save_payments_notifies_inside_transaction
        (self : Service) (w : World) (created : list StoredPayment) (w1 : World) :
  save_all (payments self) w = (Ok created, w1) ->
  let ns := flat_map (notices (db w1)) created in
  ((forall n, In n ns -> outcome env n = None) ->
   save_payments env self w = (Ok tt, with_outbox w1 (outbox w ++ ns)))
  /\ (forall l1 n l2 e,
        ns = (l1 ++ n :: l2)%list ->
        (forall m, In m l1 -> outcome env m = None) ->
        outcome env n = Some e ->
        save_payments env self w = (Raise e, with_outbox w (outbox w ++ l1))).
Proof.
  intros E ns. rewrite save_payments_unfold, E. fold ns.
  assert (Ho : outbox w1 = outbox w).
  { rewrite (save_all_frame _ _ _ _ E). reflexivity. }
  split.
  - intros Hall. rewrite (post_all_delivered ns w1 Hall). now rewrite Ho.
  - intros l1 n l2 e -> Hall Hn.
    rewrite (post_first_failure l1 l2 n e w1 Hall Hn). simpl. now rewrite Ho.
Qed.

(** *** The row a key ends with *)

Lemma matches_zero_no_row (p : CommunalPayment (decimal := decimal)) t r :
  matches p t = 0 -> In r t -> same_key p r = false.
Proof.
  unfold matches. intros M Hin.
  destruct (same_key p r) eqn:K; [|reflexivity].
  assert (Hf : In r (filter (same_key p) t)) by (apply filter_In; now split).
  destruct (filter (same_key p) t); [destruct Hf|discriminate].
Qed.

Lemma save_payment_row_origin
      (p : CommunalPayment (decimal := decimal)) w r w1 x :
  save_payment p w = (Ok r, w1) -> In x (table w1) ->
  if same_key p x then x = created_row p else In x (table w).
Proof.
  intros H Hx.
  destruct (save_payment_cases p w) as [[M E]|[[M E]|[M E]]];
    rewrite E in H; [| |discriminate]; injection H as <- <-; simpl in Hx.
  - apply in_app_or in Hx as [Hx|[<-|[]]].
    + now rewrite (matches_zero_no_row _ _ _ M Hx).
    + now rewrite (proj2 (same_key_created p p) eq_refl).
  - apply in_map_iff in Hx as (y & <- & Hy).
    rewrite (same_key_row_key p _ _ (row_key_updated p y)). unfold updated.
    destruct (same_key p y) eqn:K; [now apply set_defaults_created|exact Hy].
Qed.

Lemma find_snoc {A} (f : A -> bool) (l : list A) (a : A) :
  find f (l ++ [a])
  = match find f l with
    | Some x => Some x
    | None => if f a then Some a else None
    end.
Proof.
  induction l as [|x l IH]; simpl; [reflexivity|].
  now destruct (f x).
Qed.

(** After a loop that went through, a stored row is the row of the last
    record of the loop that has its key, or a row of the table before. *)
Lemma save_all_row_of_last (ps : list (CommunalPayment (decimal := decimal))) :
  forall (w : World) created w1,
    save_all ps w = (Ok created, w1) ->
    forall x, In x (table w1) ->
              match last_with_key ps x with
              | Some p => x = created_row p
              | None => In x (table w)
              end.
Proof.
  unfold last_with_key.
  induction ps as [|p rest IH]; intros w created w1 H x Hx.
  - injection H as <- <-. exact Hx.
  - rewrite save_all_cons in H.
    destruct (save_payment p w) as [[r0|e] w0] eqn:E; [|discriminate].
    destruct (save_all rest w0) as [[more|e] w2] eqn:E2; [|discriminate].
    injection H as <- <-.
    specialize (IH _ _ _ E2 x Hx).
    simpl rev. rewrite find_snoc.
    destruct (find _ (rev rest)) as [q|]; [exact IH|].
    pose proof (save_payment_row_origin _ _ _ _ _ E IH) as Ho.
    now destruct (same_key p x).
Qed.

(** Every record of such a loop has its one row, and that row is the row of
    the last record of its key. *)
Lemma save_all_stores_last (ps : list (CommunalPayment (decimal := decimal))) :
  forall (w : World) created w1 p,
    save_all ps w = (Ok created, w1) -> In p ps ->
    matches p (table w1) = 1
    /\ exists q, In q ps /\ key_of q = key_of p
                 /\ last_with_key ps (created_row q) = Some q
                 /\ In (created_row q) (table w1).
Proof.
  intros w created w1 p H Hp.
  destruct (save_all_ok _ _ _ _ H) as (_ & Hone & _ & _).
  split; [now apply Hone|].
  destruct (matches_pos_in p (table w1)) as (x & Hx & Hk);
    [rewrite (Hone p Hp); apply le_n|].
  pose proof (save_all_row_of_last ps w created w1 H x Hx) as Hl.
  unfold last_with_key in *.
  destruct (find (fun p' => same_key p' x) (rev ps)) as [q|] eqn:F.
  - destruct (find_some _ _ F) as [Hq Hkq]. subst x.
    exists q. repeat split.
    + now apply in_rev.
    + exact (proj1 (same_key_created q p) Hk).
    + exact F.
    + exact Hx.
  - rewrite (find_none _ _ F p) in Hk; [discriminate|]. now apply in_rev in Hp.
Qed.

(** *** The loop over the lines *)

Lemma build_payment_currency (self self' : Service (decimal := decimal)) st line i :
  currency self = currency self' ->
  build_payment env self st line i = build_payment env self' st line i.
Proof. intros H. unfold build_payment. now rewrite H. Qed.

Lemma build_payment_store (self : Service (decimal := decimal)) st st' line i :
  users st = users st' -> apartments st = apartments st' ->
  build_payment env self st line i = build_payment env self st' line i.
Proof.
  intros Hu Ha.
  unfold build_payment, new_CommunalPayment, get_payer_by_email,
    get_apartment_by_account.
  now rewrite Hu, Ha.
Qed.

Lemma row_results_currency (self self' : Service (decimal := decimal)) st data :
  currency self = currency self' ->
  forall i, row_results env self st i data = row_results env self' st i data.
Proof.
  intros H. induction data as [|line rest IH]; intros i; [reflexivity|].
  simpl. rewrite IH, (build_payment_currency self self' st line i H).
  reflexivity.
Qed.

Lemma row_results_store (self : Service (decimal := decimal)) st st' data :
  users st = users st' -> apartments st = apartments st' ->
  forall i, row_results env self st i data = row_results env self st' i data.
Proof.
  intros Hu Ha. induction data as [|line rest IH]; intros i; [reflexivity|].
  simpl. rewrite IH, (build_payment_store self st st' line i Hu Ha).
  reflexivity.
Qed.

(** One turn of the loop on a line whose record is built, and on a line that
    raises an [ImportPaymentException]: the record, or the error, is
    appended and the loop goes on with the next line. *)
Lemma import_lines_built (self : Service (decimal := decimal)) st i line rest p :
  start_row <= i -> build_payment env self st line i = Ok p ->
  import_lines env st i (line :: rest) self
  = import_lines env st (S i) rest (append_payment self p).
Proof.
  intros Hi Hb. simpl.
  replace (i <? start_row) with false by (symmetry; apply Nat.ltb_ge; exact Hi).
  now rewrite Hb.
Qed.

Lemma import_lines_raised (self : Service (decimal := decimal)) st i line rest e :
  start_row <= i -> build_payment env self st line i = Raise e ->
  is_ImportPaymentException e = true ->
  import_lines env st i (line :: rest) self
  = import_lines env st (S i) rest (append_error self e).
Proof.
  intros Hi Hb He. simpl.
  replace (i <? start_row) with false by (symmetry; apply Nat.ltb_ge; exact Hi).
  now rewrite Hb, He.
Qed.

(** The loop as a whole, when no line raises anything else: the records
    built and the errors raised, each in the order of the lines, after what
    the service held. *)
Lemma import_lines_collects (st : Store (decimal := decimal)) (data : list (list cell)) :
  forall i self,
    (forall e, In (Raise e) (row_results env self st i data) ->
               is_ImportPaymentException e = true) ->
    import_lines env st i data self
    = Ok {| file := file self;
            payments := (payments self ++ built (row_results env self st i data))%list;
            errors := (errors self ++ raised (row_results env self st i data))%list;
            currency := currency self |}.
Proof.
  induction data as [|line rest IH]; intros i self Hall.
  - simpl. rewrite !app_nil_r. now destruct self.
  - simpl in *. destruct (i <? start_row).
    + now apply IH.
    + destruct (build_payment env self st line i) as [p|e] eqn:Hb.
      * rewrite IH.
        -- rewrite (row_results_currency (append_payment self p) self st rest eq_refl).
           simpl. now rewrite <- !app_assoc.
        -- intros e He. apply Hall. right.
           now rewrite <- (row_results_currency (append_payment self p) self st rest eq_refl).
      * rewrite (Hall e (or_introl eq_refl)). rewrite IH.
        -- rewrite (row_results_currency (append_error self e) self st rest eq_refl).
           simpl. now rewrite <- !app_assoc.
        -- intros e' He. apply Hall. right.
           now rewrite <- (row_results_currency (append_error self e) self st rest eq_refl).
Qed.

Lemma run_unfold (self : Service (decimal := decimal)) w :
  run env self w
  = match import_data_from_file env self w with
    | (Ok self', w0) =>
        match save_payments env self' w0 with
        | (Ok _, w1) => (Ok (errors self'), w1)
        | (Raise e, w1) => (Raise e, w1)
        end
    | (Raise e, w0) => (Raise e, w0)
    end.
Proof.
  unfold run, bind, ret.
  destruct (import_data_from_file env self w) as [[self'|e] w0]; [|reflexivity].
  now destruct (save_payments env self' w0) as [[u|e] w1].
Qed.

(** Claim C2, amended. When reading the file gives [data] and each line from
    the second on either builds its record or raises an
    [ImportPaymentException], the loop of a new service appends every such
    error and goes on with the next line: it ends with the records built
    and the errors raised, each in the order of the lines, and the world
    untouched. What comes of them is decided by [save_payments]. When it
    returns, [run] returns the errors in the order of the lines, and every
    record built is persisted: its key has one row, which is the row of the
    last record built with that key (the row of the record itself when no
    other record has its key), and users and apartments are as before. When
    it raises, from an upsert or from a notification, [run] raises the same
    exception, returns no list and the store is as it was. It returns
    whenever no key of the records has two rows in the store and the mail
    is delivered. *)
Theorem run_collects_row_errors
        (self : Service) (data : list (list cell)) (w : World) :
  load_data env self = Ok (Some data) ->
  payments self = [] -> errors self = [] ->
  let rs := row_results env self (db w) 1 data in
  (forall e, In (Raise e) rs -> is_ImportPaymentException e = true) ->
  let self' := {| file := file self; payments := built rs;
                  errors := raised rs; currency := currency self |} in
  import_data_from_file env self w = (Ok self', w)
  /\ (forall u w',
        save_payments env self' w = (Ok u, w') ->
        run env self w = (Ok (raised rs), w')
        /\ users (db w') = users (db w)
        /\ apartments (db w') = apartments (db w)
        /\ forall p,
             In p (built rs) ->
             matches p (table w') = 1
             /\ (exists q, In q (built rs) /\ key_of q = key_of p
                           /\ last_with_key (built rs) (created_row q) = Some q
                           /\ In (created_row q) (table w'))
             /\ ((forall p', In p' (built rs) -> key_of p' = key_of p -> p' = p) ->
                 In (created_row p) (table w')))
  /\ (forall e w',
        save_payments env self' w = (Raise e, w') ->
        run env self w = (Raise e, w') /\ db w' = db w)
  /\ ((forall p, In p (built rs) -> matches p (table w) <= 1) ->
      (forall n, outcome env n = None) ->
      exists w', save_payments env self' w = (Ok tt, w')).
Proof.
  intros Hl Hp He rs Hrs self'.
  assert (Hi : import_data_from_file env self w = (Ok self', w)).
  { unfold import_data_from_file. rewrite Hl.
    rewrite (import_lines_collects (db w) data 1 self Hrs).
    fold rs. rewrite Hp, He. reflexivity. }
  split; [exact Hi|].
  split; [|split].
  - intros u w' Hs. rewrite run_unfold, Hi, Hs.
    split; [reflexivity|].
    pose proof Hs as Hs'. rewrite save_payments_unfold in Hs'.
    destruct (save_all (payments self') w) as [[created|e0] w0] eqn:E;
      [|discriminate].
    destruct (for_each _ _ w0) as [[u'|e1] w2] eqn:E2; [|discriminate].
    injection Hs' as _ <-.
    apply post_all_frame in E2 as [Hdb _].
    pose proof (save_all_frame _ _ _ _ E) as Hw0.
    split; [rewrite Hdb, Hw0; reflexivity|].
    split; [rewrite Hdb, Hw0; reflexivity|].
    intros p Hin. rewrite Hdb.
    destruct (save_all_stores_last _ _ _ _ p E Hin) as (Hone & q & Hq & Hk & Hlast & Hrow).
    split; [exact Hone|]. split.
    + exists q. now repeat split.
    + intros Honly. now rewrite <- (Honly q Hq Hk).
  - intros e w' Hs. rewrite run_unfold, Hi, Hs. split; [reflexivity|].
    rewrite save_payments_unfold in Hs.
    destruct (save_all (payments self') w) as [[created|e0] w0].
    + destruct (for_each _ _ w0) as [[u'|e1] w2]; [discriminate|].
      now injection Hs as _ <-.
    + now injection Hs as _ <-.
  - intros Hm Hmail. rewrite save_payments_unfold.
    destruct (save_all_succeeds (payments self') w Hm) as [w1 Hs].
    rewrite Hs.
    rewrite post_all_delivered by (intros n _; apply Hmail).
    eexists. reflexivity.
Qed.

(** *** Importing again *)

Lemma notices_lodgers (st st' : Store (decimal := decimal)) r :
  lodgers st = lodgers st' -> notices st r = notices st' r.
Proof. intros H. unfold notices. now rewrite H. Qed.

Lemma flat_map_notices_lodgers (st st' : Store (decimal := decimal)) rs :
  lodgers st = lodgers st' ->
  flat_map (notices st) rs = flat_map (notices st') rs.
Proof.
  intros H. apply flat_map_ext. intros r. now apply notices_lodgers.
Qed.

(** A [save_payments] that went through goes through again on the world it
    left, and leaves as many rows. *)
Lemma save_payments_again (self : Service (decimal := decimal)) w u w1 :
  save_payments env self w = (Ok u, w1) ->
  exists w2,
    save_payments env self w1 = (Ok u, w2)
    /\ length (table w2) = length (table w1).
Proof.
  rewrite !save_payments_unfold.
  destruct (save_all (payments self) w) as [[created|e0] w0] eqn:E;
    [|discriminate].
  destruct (for_each _ _ w0) as [[u'|e1] w1'] eqn:E2; [|discriminate].
  intros [= -> ->].
  destruct (save_all_ok _ _ _ _ E) as (Hc & Hone & _ & _).
  destruct (post_all_ok _ _ _ _ E2) as [Hall Hw1].
  assert (Ht : table w1 = table w0) by now rewrite Hw1.
  destruct (save_all_succeeds (payments self) w1) as [w2 Hs].
  { intros p Hp. rewrite Ht, (Hone p Hp). lia. }
  rewrite Hs.
  destruct (save_all_ok _ _ _ _ Hs) as (_ & _ & _ & Hlen).
  pose proof (save_all_frame _ _ _ _ Hs) as Hw2.
  assert (Hns : flat_map (notices (db w2)) (map created_row (payments self))
                = flat_map (notices (db w0)) created).
  { rewrite Hc. apply flat_map_notices_lodgers. rewrite Hw2, Hw1. reflexivity. }
  rewrite Hns, (post_all_delivered _ w2 Hall).
  destruct u. eexists. split; [reflexivity|].
  simpl. apply Hlen. intros p Hp. rewrite Ht, (Hone p Hp). lia.
Qed.

Lemma import_lines_store (st st' : Store (decimal := decimal)) data :
  users st = users st' -> apartments st = apartments st' ->
  forall i self, import_lines env st i data self = import_lines env st' i data self.
Proof.
  intros Hu Ha. induction data as [|line rest IH]; intros i self; [reflexivity|].
  simpl. rewrite (build_payment_store self st st' line i Hu Ha).
  destruct (i <? start_row); [apply IH|].
  destruct (build_payment env self st' line i) as [p|e]; [apply IH|].
  destruct (is_ImportPaymentException e); [apply IH|reflexivity].
Qed.

Lemma save_payments_keeps_people (self : Service (decimal := decimal)) w r w1 :
  save_payments env self w = (r, w1) ->
  users (db w1) = users (db w) /\ apartments (db w1) = apartments (db w).
Proof.
  rewrite save_payments_unfold.
  destruct (save_all (payments self) w) as [[created|e0] w0] eqn:E.
  - pose proof (save_all_frame _ _ _ _ E) as Hw0.
    destruct (for_each _ _ w0) as [[u'|e1] w1'] eqn:E2.
    + intros [= <- <-]. apply post_all_frame in E2 as [-> _].
      rewrite Hw0. now split.
    + intros [= <- <-]. now split.
  - intros [= <- <-]. now split.
Qed.

(** Claim C8. Persisting a record is an upsert on the key of payer, apartment, date
    and external number. With no row of that key, [save_payment] adds the
    row of the record. After a record was saved, saving a record of the same
    key adds no row: the one row of that key now carries the currency, the
    price and the description of the second record. And a run that went
    through, repeated on the world it left, goes through with the same
    errors and leaves as many rows as it found. *)
Theorem save_payment_upsert :
  (forall (p : CommunalPayment (decimal := decimal)) (w : World),
      matches p (table w) = 0 ->
      save_payment p w
      = (Ok (created_row p), with_table w (table w ++ [created_row p])%list))
  /\ (forall (p q : CommunalPayment (decimal := decimal)) (w : World) r w1,
        key_of q = key_of p ->
        save_payment p w = (Ok r, w1) ->
        exists w2,
          save_payment q w1 = (Ok (created_row q), w2)
          /\ length (table w2) = length (table w1)
          /\ matches q (table w2) = 1
          /\ In (created_row q) (table w2))
  /\ (forall (self : Service (decimal := decimal)) (w : World) errs w1,
        payments self = [] ->
        run env self w = (Ok errs, w1) ->
        exists w2,
          run env self w1 = (Ok errs, w2)
          /\ length (table w2) = length (table w1)).
Proof.
  split; [|split].
  - intros p w M.
    destruct (save_payment_cases p w) as [[_ E]|[[M' _]|[M' _]]];
      [exact E|lia|lia].
  - intros p q w r w1 Hk H.
    pose proof (matches_after_save _ _ _ _ H) as M1.
    rewrite <- (matches_key_of q p _ Hk) in M1.
    destruct (save_payment_cases q w1) as [[M E]|[[M E]|[M E]]]; try lia.
    exists (with_table w1 (map (updated q) (table w1))).
    split; [exact E|].
    destruct (save_payment_ok _ _ _ _ E) as (_ & _ & _ & Hl & _ & Hin).
    repeat split.
    + rewrite Hl, M1. simpl. lia.
    + apply (matches_after_save _ _ _ _ E).
    + exact Hin.
  - intros self w errs w1 Hp H.
    rewrite run_unfold in H. rewrite run_unfold.
    unfold import_data_from_file in *.
    destruct (load_data env self) as [[data|]|e] eqn:Hl.
    + destruct (import_lines env (db w) 1 data self) as [self'|e] eqn:Hi;
        [|discriminate].
      destruct (save_payments env self' w) as [[u|e] w1'] eqn:Hs; [|discriminate].
      injection H as <- <-.
      destruct (save_payments_keeps_people _ _ _ _ Hs) as [Hu Ha].
      rewrite (import_lines_store (db w1') (db w) data Hu Ha), Hi.
      destruct (save_payments_again _ _ _ _ Hs) as (w2 & Hs2 & Hlen).
      rewrite Hs2. now exists w2.
    + discriminate.
    + unfold bind, capture_exception, ret in *.
      rewrite !save_payments_unfold in *. simpl in *.
      rewrite Hp in *. simpl in *.
      injection H as <- <-. eexists. split; reflexivity.
Qed.

End Properties.

(* ===================================================================== *)
(** ** The properties on the small installation *)
(* ===================================================================== *)

(** Claim C3 on rows of the sample: one failing row for each check, on line
    2 of a file. *)
Lemma build_payment_validation_order_witness :
  let build row :=
    build_payment Sample.env (Sample.service OtherObject) Sample.store0
                  (map CStr row) 2 in
  build Sample.short_row
  = Raise (ParseFileError "Invalid number of columns: line=2 got=2 expected=8")
  /\ build Sample.bad_price_row
     = Raise (ParseFileError "Invalid price value format: got=abc expected='00.00'")
  /\ build Sample.bad_date_row
     = Raise (ParseFileError
                "Invalid month value format: got=2001-01-01 expected='01-01-2001'")
  /\ build Sample.unknown_email_row
     = Raise (ImportPaymentException "Payer by email = carl@example.com not found")
  /\ build Sample.unknown_account_row
     = Raise (ImportPaymentException "Apartment by account number #ACC-9 not found")
  /\ exists p, build Sample.good_row = Ok p /\ payer p = Sample.anna
               /\ apartment p = Sample.flat /\ price p = (1250, -2)%Z
               /\ date p = mk_datetime 2001 1 1 0 0 0.
Proof.
  cbv zeta.
  pose proof (fun row =>
    build_payment_validation_order Sample.env (Sample.service OtherObject)
      Sample.store0 (map CStr row) 2) as V.
  cbv zeta in V.
  split; [|split; [|split; [|split; [|split]]]].
  - apply (proj1 (V Sample.short_row)). discriminate.
  - apply (proj1 (proj2 (V Sample.bad_price_row))); reflexivity.
  - apply (proj1 (proj2 (proj2 (V Sample.bad_date_row))) (700, -2)%Z "2001-01-01");
      reflexivity.
  - apply (proj1 (proj2 (proj2 (proj2 (V Sample.unknown_email_row))))
             (700, -2)%Z (mk_datetime 2001 1 1 0 0 0)); try reflexivity.
    intros u [<-|[<-|[]]]; discriminate.
  - apply (proj1 (proj2 (proj2 (proj2 (proj2 (V Sample.unknown_account_row)))))
             (700, -2)%Z (mk_datetime 2001 1 1 0 0 0) Sample.anna); try reflexivity.
    intros a [<-|[]]; discriminate.
  - apply (proj2 (proj2 (proj2 (proj2 (proj2 (V Sample.good_row)))))
             (1250, -2)%Z (mk_datetime 2001 1 1 0 0 0) Sample.anna Sample.flat);
      reflexivity.
Defined.

(** Claim C4 on the sample: the good row, an unknown email, an unknown
    account. *)
Lemma CommunalPayment_references_resolve_witness :
  (exists p,
      build_payment Sample.env (Sample.service OtherObject) Sample.store0
                    (map CStr Sample.good_row) 2 = Ok p
      /\ In (payer p) (users Sample.store0)
      /\ user_email (payer p) = "anna@example.com"
      /\ In (apartment p) (apartments Sample.store0)
      /\ apartment_account_number (apartment p) = "ACC-1")
  /\ new_CommunalPayment Sample.store0 "carl@example.com" "ACC-9"
       (mk_datetime 2001 1 1 0 0 0) "n-5" (700, -2)%Z "water" "house 5" Sample.euro
     = Raise (ImportPaymentException "Payer by email = carl@example.com not found")
  /\ new_CommunalPayment Sample.store0 "anna@example.com" "ACC-9"
       (mk_datetime 2001 1 1 0 0 0) "n-3" (700, -2)%Z "water" "house 5" Sample.euro
     = Raise (ImportPaymentException "Apartment by account number #ACC-9 not found").
Proof.
  pose proof (CommunalPayment_references_resolve Sample.env
                (Sample.service OtherObject) Sample.store0
                (map CStr Sample.good_row) 2) as (R1 & R2 & R3).
  split; [|split].
  - exists Sample.payment1. split; [reflexivity|].
    apply (R1 Sample.payment1). reflexivity.
  - apply R2. intros u [<-|[<-|[]]]; discriminate.
  - refine (R3 "anna@example.com" "ACC-9" _ _ _ _ _ _ Sample.anna eq_refl _).
    intros a [<-|[]]; discriminate.
Defined.

(** Claim C5 on the sample: the price [abc] is refused with its text in the
    message; the good row, whose price is [12,50], passes the price check
    and builds a record with the price 12.50; and the same row with the
    price [12.50] builds the same record. *)
Lemma build_payment_price_witness :
  let build row i :=
    build_payment Sample.env (Sample.service OtherObject) Sample.store0
                  (map CStr row) i in
  let good_row_point :=
    ["N-1"; "01-01-2001"; "House 5"; "12"; " ACC-1 "; "Anna@Example.com";
     "Water"; "12.50"] in
  length (map CStr Sample.bad_price_row) = cols
  /\ length (map CStr Sample.good_row) = cols
  /\ build Sample.bad_price_row 3
     = Raise (ParseFileError "Invalid price value format: got=abc expected='00.00'")
  /\ Sample.plain_Decimal (price_text (CStr "12,50")) = Some (1250, -2)%Z
  /\ (exists p, build Sample.good_row 2 = Ok p /\ price p = (1250, -2)%Z)
  /\ build Sample.good_row 2
     <> Raise (ParseFileError
                 "Invalid price value format: got=12.50 expected='00.00'")
  /\ build good_row_point 7 = build Sample.good_row 2
  /\ build good_row_point 7 = Ok Sample.payment1.
Proof.
  cbv zeta.
  pose proof (build_payment_price Sample.env (Sample.service OtherObject)
                Sample.store0 (map CStr Sample.bad_price_row) 3 eq_refl) as B.
  pose proof (build_payment_price Sample.env (Sample.service OtherObject)
                Sample.store0 (map CStr Sample.good_row) 2 eq_refl) as G.
  cbv zeta in B, G.
  destruct B as (B1 & _).
  destruct G as (_ & _ & G3 & G4 & G5 & _ & _).
  split; [reflexivity|]. split; [reflexivity|].
  split; [apply B1; reflexivity|].
  split; [reflexivity|].
  split; [apply (G4 (1250, -2)%Z (mk_datetime 2001 1 1 0 0 0)
                    Sample.anna Sample.flat); reflexivity|].
  split; [apply (proj2 (G3 (1250, -2)%Z eq_refl) "12.50")|].
  assert (E : build_payment Sample.env (Sample.service OtherObject) Sample.store0
                (map CStr ["N-1"; "01-01-2001"; "House 5"; "12"; " ACC-1 ";
                           "Anna@Example.com"; "Water"; "12.50"]) 7
              = build_payment Sample.env (Sample.service OtherObject)
                  Sample.store0 (map CStr Sample.good_row) 2).
  { apply G5; [reflexivity| |reflexivity].
    intros k Hk.
    do 8 (destruct k as [|k]; [first [reflexivity | now destruct Hk]|]).
    now destruct k. }
  split; [exact E|]. rewrite E. reflexivity.
Defined.

(** Claim C6, where the code departs from it. An empty date cell in a sheet:
    the call of [strip] fails on [None], the
    loop does not catch the [AttributeError], and the run ends with it. *)
Theorem run_empty_date_cell_raises :
  load_data Sample.env (Sample.service (Path "payments.xlsx"))
  = Ok (Some (read_sheet Sample.empty_date_sheet))
  /\ build_payment Sample.env (Sample.service (Path "payments.xlsx"))
        Sample.store0 (nth 1 (read_sheet Sample.empty_date_sheet) []) 2
     = Raise (AttributeError "'NoneType' object has no attribute 'strip'")
  /\ run Sample.env (Sample.service (Path "payments.xlsx")) Sample.world0
     = (Raise (AttributeError "'NoneType' object has no attribute 'strip'"),
        Sample.world0).
Proof. repeat split. Qed.

(** Claim C7 on a text file. *)
Lemma run_unsupported_extension_witness :
  extension "notes.TXT" = "txt"
  /\ exists e,
       is_FileTypeError e = true
       /\ run Sample.env (Sample.service (Path "notes.TXT")) Sample.world0
          = (Ok [e],
             {| db := Sample.store0; outbox := [];
                sentry := [KeyError (extension "notes.TXT")] |})
       /\ load_data Sample.env (Sample.service (Path "notes.TXT"))
          = Raise (KeyError (extension "notes.TXT")).
Proof.
  split; [reflexivity|].
  apply (run_unsupported_extension Sample.env
           (Sample.service (Path "notes.TXT")) "notes.TXT" Sample.world0);
    try reflexivity; try discriminate.
  now left.
Defined.

(** With the mail server down, the record of [good_row] is upserted, the
    notification of its payer fails, and the row is gone again. *)
Example save_payments_mail_down :
  let self := {| file := Path "one.csv"; payments := [Sample.payment1];
                 errors := []; currency := Sample.euro |} in
  save_all (payments self) Sample.world0
  = (Ok [created_row Sample.payment1],
     with_table Sample.world0 [created_row Sample.payment1])
  /\ save_payments Sample.env_mail_down self Sample.world0
     = (Raise (OtherError "Connection refused"), Sample.world0)
  /\ communal_payments (db Sample.world0) = []
  /\ run Sample.env_mail_down (Sample.service (Path "one.csv")) Sample.world0
     = (Raise (OtherError "Connection refused"), Sample.world0).
Proof. repeat split. Qed.

(** Claim C1, as the specification states it, fails: it is not so that after
    upserts that went through the store keeps their rows whatever becomes of
    the notifications. The notification is sent before the commit, and with
    the mail server down its failure undoes the upsert of [good_row]. *)
Lemma notification_failure_rolls_back :
  ~ (forall (env : Environment (decimal := Sample.dec)) (self : Service)
            (w : World) created w1 r w',
        save_all (payments self) w = (Ok created, w1) ->
        save_payments env self w = (r, w') ->
        db w' = db w1).
Proof.
  intros H.
  specialize (H Sample.env_mail_down
                {| file := Path "one.csv"; payments := [Sample.payment1];
                   errors := []; currency := Sample.euro |}
                Sample.world0 _ _ _ _ eq_refl eq_refl).
  discriminate H.
Qed.

(** Claim C1, amended, on the good row: with mail delivered, and with the
    mail server down. *)
Lemma save_payments_notifies_inside_transaction_witness :
  let self := {| file := Path "one.csv"; payments := [Sample.payment1];
                 errors := []; currency := Sample.euro |} in
  let row := created_row Sample.payment1 in
  save_all (payments self) Sample.world0
  = (Ok [row], with_table Sample.world0 [row])
  /\ save_payments Sample.env self Sample.world0
     = (Ok tt, {| db := with_communal_payments Sample.store0 [row];
                  outbox := [PayerNotice row; LodgerNotice row Sample.boris];
                  sentry := [] |})
  /\ save_payments Sample.env_mail_down self Sample.world0
     = (Raise (OtherError "Connection refused"), Sample.world0).
Proof.
  cbv zeta.
  set (self := {| file := Path "one.csv"; payments := [Sample.payment1];
                  errors := []; currency := Sample.euro |}).
  set (row := created_row Sample.payment1).
  split; [reflexivity|]. split.
  - apply (proj1 (save_payments_notifies_inside_transaction Sample.env self
                    Sample.world0 [row] (with_table Sample.world0 [row]) eq_refl)).
    intros n _. now destruct n.
  - apply (proj2 (save_payments_notifies_inside_transaction Sample.env_mail_down
                    self Sample.world0 [row] (with_table Sample.world0 [row]) eq_refl)
             [] (PayerNotice row) [LodgerNotice row Sample.boris]);
      try reflexivity.
    intros m [].
Defined.

(** Claim C2, as the specification states it, fails: it is not so that for
    every file whose rows build or raise [ImportPaymentException]s the run
    returns their errors and the rows built are stored. With the mail server
    down the file of three rows has its two errors collected and its good
    row built, and the run raises: no list comes back and nothing is
    stored. *)
Lemma run_raises_after_collecting :
  ~ (forall (env : Environment (decimal := Sample.dec)) (self : Service)
            (data : list (list cell)) (w : World),
        load_data env self = Ok (Some data) ->
        payments self = [] -> errors self = [] ->
        (forall e, In (Raise e) (row_results env self (db w) 1 data) ->
                   is_ImportPaymentException e = true) ->
        exists w',
          run env self w = (Ok (raised (row_results env self (db w) 1 data)), w')
          /\ forall p, In p (built (row_results env self (db w) 1 data)) ->
                       exists r, In r (communal_payments (db w'))
                                 /\ same_key p r = true).
Proof.
  intros H.
  destruct (H Sample.env_mail_down (Sample.service (Path "payments.csv"))
              (map (map CStr)
                   [Sample.header; Sample.good_row; Sample.bad_price_row;
                    Sample.unknown_account_row])
              Sample.world0 eq_refl eq_refl eq_refl) as (w' & Hrun & _).
  - intros e [He|[He|[He|[]]]]; try discriminate He; now injection He as <-.
  - discriminate Hrun.
Qed.

(** Claim C2, amended, on the file of three rows: two errors in the order of
    the rows and the good row built; with mail delivered the run returns
    the two errors and the row of the good row is stored; with the mail
    server down the run raises and the store is as it was. *)
Lemma run_collects_row_errors_witness :
  let self := Sample.service (Path "payments.csv") in
  let data := map (map CStr)
                  [Sample.header; Sample.good_row; Sample.bad_price_row;
                   Sample.unknown_account_row] in
  let errs :=
    [ParseFileError "Invalid price value format: got=abc expected='00.00'";
     ImportPaymentException "Apartment by account number #ACC-9 not found"] in
  let row := created_row Sample.payment1 in
  let w' := {| db := with_communal_payments Sample.store0 [row];
               outbox := [PayerNotice row; LodgerNotice row Sample.boris];
               sentry := [] |} in
  load_data Sample.env self = Ok (Some data)
  /\ import_data_from_file Sample.env self Sample.world0
     = (Ok {| file := Path "payments.csv"; payments := [Sample.payment1];
              errors := errs; currency := Sample.euro |}, Sample.world0)
  /\ run Sample.env self Sample.world0 = (Ok errs, w')
  /\ matches Sample.payment1 (communal_payments (db w')) = 1
  /\ In row (communal_payments (db w'))
  /\ run Sample.env_mail_down self Sample.world0
     = (Raise (OtherError "Connection refused"), Sample.world0)
  /\ exists w'', save_payments Sample.env
                   {| file := Path "payments.csv"; payments := [Sample.payment1];
                      errors := errs; currency := Sample.euro |} Sample.world0
                 = (Ok tt, w'').
Proof.
  cbv zeta.
  assert (Hrows : forall env : Environment (decimal := Sample.dec),
             Decimal env = Sample.plain_Decimal ->
             forall e,
               In (Raise e)
                  (row_results env (Sample.service (Path "payments.csv"))
                     (db Sample.world0) 1
                     (map (map CStr)
                          [Sample.header; Sample.good_row; Sample.bad_price_row;
                           Sample.unknown_account_row])) ->
               is_ImportPaymentException e = true).
  { intros env HD e. unfold row_results, build_payment. rewrite HD.
    intros [He|[He|[He|[]]]]; try discriminate He; now injection He as <-. }
  destruct (run_collects_row_errors Sample.env
              (Sample.service (Path "payments.csv")) _ Sample.world0
              eq_refl eq_refl eq_refl (Hrows Sample.env eq_refl))
    as (Hi & Hok & _ & Hsuff).
  destruct (run_collects_row_errors Sample.env_mail_down
              (Sample.service (Path "payments.csv")) _ Sample.world0
              eq_refl eq_refl eq_refl (Hrows Sample.env_mail_down eq_refl))
    as (_ & _ & Hraise & _).
  destruct (Hok tt _ eq_refl) as (Hrun & _ & _ & Hrow).
  destruct (Hrow Sample.payment1 (or_introl eq_refl)) as (Hone & _ & Honly).
  split; [reflexivity|]. split; [exact Hi|]. split; [exact Hrun|].
  split; [exact Hone|]. split.
  - apply Honly. intros p' [<-|[]] _. reflexivity.
  - split.
    + exact (proj1 (Hraise _ _ eq_refl)).
    + apply Hsuff.
      * intros p [<-|[]]. apply Nat.le_0_l.
      * intros n. now destruct n.
Defined.


(** Claim C8 on the good row imported twice: the second record has the key of the first
    and another price; the table keeps its one row, now with that price. *)
Lemma save_payment_upsert_witness :
  let w1 := with_table Sample.world0 [created_row Sample.payment1] in
  key_of Sample.payment1' = key_of Sample.payment1
  /\ save_payment Sample.payment1 Sample.world0
     = (Ok (created_row Sample.payment1), w1)
  /\ (exists w2,
        save_payment Sample.payment1' w1 = (Ok (created_row Sample.payment1'), w2)
        /\ length (communal_payments (db w2)) = length (communal_payments (db w1))
        /\ matches Sample.payment1' (communal_payments (db w2)) = 1
        /\ In (created_row Sample.payment1') (communal_payments (db w2)))
  /\ exists w2 w3,
       run Sample.env (Sample.service (Path "one.csv")) Sample.world0 = (Ok [], w2)
       /\ run Sample.env (Sample.service (Path "one.csv")) w2 = (Ok [], w3)
       /\ length (communal_payments (db w3)) = 1
       /\ length (communal_payments (db w2)) = 1.
Proof.
  cbv zeta.
  pose proof (save_payment_upsert Sample.env) as (U1 & U2 & U3).
  split; [reflexivity|]. split; [|split].
  - apply (U1 Sample.payment1 Sample.world0). reflexivity.
  - apply (U2 Sample.payment1 Sample.payment1' Sample.world0
             (created_row Sample.payment1)); reflexivity.
  - destruct (U3 (Sample.service (Path "one.csv")) Sample.world0 [] _
                 eq_refl eq_refl) as (w3 & H & Hlen).
    eexists. exists w3. split; [reflexivity|]. split; [exact H|].
    split; [rewrite Hlen|]; reflexivity.
Defined.

(* ===================================================================== *)
(** ** Further properties of the code *)
(* ===================================================================== *)

Section Coverage.

Context {decimal : Type} (env : Environment (decimal := decimal)).

Local Abbreviation table w := (communal_payments (db w)).

(** *** Reading a sheet *)

Lemma take_cols_length (r : list cell) : length (take_cols r) = cols.
Proof. unfold take_cols. now rewrite length_map, length_seq. Qed.

Lemma objects_get_raises {A} (m : model) (cond : A -> bool) (t : list A) e :
  objects_get m cond t = Raise e ->
  e = DoesNotExist m \/ e = MultipleObjectsReturned m.
Proof.
  unfold objects_get. destruct (filter cond t) as [|x [|y l]]; intros [= <-]; tauto.
Qed.

Lemma get_payer_by_email_raises (st : Store (decimal := decimal)) em e :
  get_payer_by_email st em = Raise e ->
  e = ImportPaymentException ("Payer by email = " ++ em ++ " not found")
  \/ e = MultipleObjectsReturned MUser.
Proof.
  unfold get_payer_by_email.
  destruct (objects_get MUser _ (users st)) as [u|e0] eqn:G; [discriminate|].
  destruct (objects_get_raises _ _ _ _ G) as [-> | ->]; intros [= <-]; tauto.
Qed.

Lemma get_apartment_by_account_raises (st : Store (decimal := decimal)) acc e :
  get_apartment_by_account st acc = Raise e ->
  e = ImportPaymentException
        ("Apartment by account number #" ++ acc ++ " not found")
  \/ e = MultipleObjectsReturned MApartment.
Proof.
  unfold get_apartment_by_account.
  destruct (objects_get MApartment _ (apartments st)) as [a|e0] eqn:G;
    [discriminate|].
  destruct (objects_get_raises _ _ _ _ G) as [-> | ->]; intros [= <-]; tauto.
Qed.

Lemma new_CommunalPayment_raises (st : Store (decimal := decimal))
      em acc d ext pr descr b c e :
  new_CommunalPayment st em acc d ext pr descr b c = Raise e ->
  (exists msg, e = ImportPaymentException msg)
  \/ e = MultipleObjectsReturned MUser
  \/ e = MultipleObjectsReturned MApartment.
Proof.
  unfold new_CommunalPayment.
  destruct (get_payer_by_email st em) as [u|e1] eqn:Hu; simpl.
  - destruct (get_apartment_by_account st acc) as [a|e2] eqn:Ha; simpl;
      [discriminate|].
    intros [= <-].
    destruct (get_apartment_by_account_raises _ _ _ Ha) as [-> | ->];
      [left; eexists; reflexivity|tauto].
  - intros [= <-].
    destruct (get_payer_by_email_raises _ _ _ Hu) as [-> | ->];
      [left; eexists; reflexivity|tauto].
Qed.

(** X1. Every row [get_data_from_xlsx] reads off a sheet has exactly eight
    cells and a first cell that is not empty, whatever the stored row held:
    a row of a sheet never fails the check of the number of columns. *)
Theorem read_sheet_rows (sh : sheet) (line : list cell) :
  In line (read_sheet sh) ->
  length line = cols
  /\ truthy (item line 0) = true
  /\ forall (self : Service (decimal := decimal)) st i msg,
       build_payment env self st line i = Raise (ParseFileError msg) ->
       msg <> columns_message i (length line).
Proof.
  intros Hin.
  assert (H : length line = cols /\ truthy (item line 0) = true).
  { induction sh as [|r rest IH]; [destruct Hin|].
    simpl in Hin. destruct (truthy (nth 0 r CNone)) eqn:T; [|destruct Hin].
    destruct Hin as [<-|Hin]; [|now apply IH].
    split; [reflexivity|exact T]. }
  destruct H as [Hlen Ht]. split; [exact Hlen|]. split; [exact Ht|].
  intros self st i msg Hb Hmsg. unfold build_payment in Hb.
  rewrite Hlen in Hb. simpl in Hb.
  destruct (Decimal env _) as [pr|].
  - destruct (parse_month (item line col_month)) as [d|e] eqn:Hd.
    + simpl in Hb.
      destruct (new_CommunalPayment_raises _ _ _ _ _ _ _ _ _ _ Hb)
        as [[m Hm]|[Hm|Hm]]; discriminate Hm.
    + simpl in Hb. injection Hb as ->.
      destruct (item line col_month) as [s|d| |r b]; simpl in Hd;
        try discriminate Hd.
      destruct (PyDate.strptime_dmY _); [discriminate Hd|].
      injection Hd as <-. discriminate Hmsg.
  - injection Hb as <-. discriminate Hmsg.
Qed.


(** *** The extension of a file name *)

Lemma contains_dot_cons c r :
  PyStr.contains "." (String c r) = false ->
  Ascii.eqb c "." = false /\ PyStr.contains "." r = false.
Proof.
  change (PyStr.contains "." (String c r))
    with (if (if ascii_dec "." c then String.prefix "" r else false)
          then true else PyStr.contains "." r).
  destruct (ascii_dec "." c) as [<-|Hn]; [destruct r; discriminate|].
  intros H. split; [|exact H].
  apply Ascii.eqb_neq. congruence.
Qed.

Lemma split_last_from_no_sep (acc s : string) :
  PyStr.contains "." s = false ->
  PyStr.split_last_from "." acc s = acc ++ s.
Proof.
  revert acc. induction s as [|c r IH]; intros acc H.
  - simpl. clear H. induction acc as [|a acc IHa]; [reflexivity|].
    simpl. now rewrite <- IHa.
  - apply contains_dot_cons in H as [Hc Hr]. simpl. rewrite Hc.
    rewrite (IH _ Hr).
    clear. induction acc as [|a acc IHa]; [reflexivity|].
    simpl. now rewrite IHa.
Qed.

Lemma split_last_from_after_sep (base acc ext : string) :
  PyStr.contains "." ext = false ->
  PyStr.split_last_from "." acc (base ++ String "." ext) = ext.
Proof.
  intros H. revert acc. induction base as [|c r IH]; intros acc; simpl.
  - now rewrite (split_last_from_no_sep "" ext H).
  - destruct (Ascii.eqb c "."); apply IH.
Qed.

(** X4. The format of a file is read off what follows the last point of
    its name, in lower case: [base.ext] has the extension [ext.lower()]
    whatever [base] holds, and a name without a point is its own
    extension. *)
Theorem extension_last_point (base ext : string) :
  PyStr.contains "." ext = false ->
  extension (base ++ "." ++ ext) = PyStr.lower ext
  /\ extension ext = PyStr.lower ext.
Proof.
  intros H. unfold extension, PyStr.split_last. split.
  - change (base ++ "." ++ ext) with (base ++ String "." ext).
    now rewrite split_last_from_after_sep.
  - now rewrite split_last_from_no_sep.
Qed.

(** *** The constructor of the service *)

(** X5. [__init__] gives a service with no payments and no errors whose
    currency is the stored currency with the configured code; without such
    a currency it raises [DoesNotExist] and no service is made. *)
Theorem init_service (code : string) (f : file_arg) (st : Store (decimal := decimal)) :
  (forall self, init code f st = Ok self ->
                file self = f /\ payments self = [] /\ errors self = []
                /\ In (currency self) (currencies st)
                /\ currency_code (currency self) = code)
  /\ ((forall c, In c (currencies st) -> currency_code c <> code) ->
      init (decimal := decimal) code f st = Raise (DoesNotExist MCurrency)).
Proof.
  unfold init. split.
  - intros self H.
    destruct (objects_get MCurrency _ (currencies st)) as [c|e] eqn:G;
      [|discriminate].
    simpl in H. injection H as <-. simpl.
    apply objects_get_ok in G as [Hin Hc].
    repeat split; [exact Hin|]. now apply String.eqb_eq.
  - intros H. rewrite objects_get_none; [reflexivity|].
    intros c Hc. apply String.eqb_neq. now apply H.
Qed.

(** *** The record of a row *)

(** X6. A record that is built comes from a row of eight cells and holds:
    the email, the external number, the description and the building
    trimmed and in lower case; the account number trimmed, its case kept;
    the date of the date cell; and the currency of the service, not one of
    the row. *)
Theorem build_payment_fields
        (self : Service) (st : Store) (line : list cell) (i : nat)
        (p : CommunalPayment) :
  build_payment env self st line i = Ok p ->
  length line = cols
  /\ email p = PyStr.lower (PyStr.strip (py_str (item line col_email)))
  /\ account_number p = PyStr.strip (py_str (item line col_account_number))
  /\ ext_number p = PyStr.lower (PyStr.strip (py_str (item line col_ext_number)))
  /\ description p = PyStr.lower (PyStr.strip (py_str (item line col_description)))
  /\ building p = PyStr.lower (PyStr.strip (py_str (item line col_building)))
  /\ parse_month (item line col_month) = Ok (date p)
  /\ cp_currency p = currency self.
Proof.
  unfold build_payment. intros H.
  destruct (length line =? cols) eqn:L; [|discriminate].
  apply Nat.eqb_eq in L. simpl in H.
  destruct (Decimal env _) as [pr|]; [|discriminate].
  destruct (parse_month _) as [d|]; [|discriminate].
  simpl in H. unfold new_CommunalPayment in H.
  destruct (get_payer_by_email st _) as [u|]; [|discriminate].
  destruct (get_apartment_by_account st _) as [a|]; [|discriminate].
  simpl in H. injection H as <-. simpl. tauto.
Qed.

(** X7. The cell of the apartment label is never read, nor is the number
    of the line once the row has eight cells: two rows of eight cells that
    agree on the other seven cells give the same record or the same
    exception, on whatever lines they stand. *)
Theorem build_payment_ignores_label
        (self : Service) (st : Store) (line line' : list cell) (i j : nat) :
  length line = cols -> length line' = cols ->
  (forall k, k <> col_apartment -> item line k = item line' k) ->
  build_payment env self st line i = build_payment env self st line' j.
Proof.
  intros L L' H. unfold build_payment. rewrite L, L'. simpl.
  rewrite (H col_price), (H col_month), (H col_email),
    (H col_account_number), (H col_ext_number), (H col_description),
    (H col_building); try discriminate.
  reflexivity.
Qed.

(** *** Files that cannot be read and files without rows *)

(** X8. Whatever reading the file raises (no such file, a text that is not
    UTF-8, a workbook without a sheet), a run of a service without payments
    hands the exception to [capture_exception], returns it wrapped in one
    [FileTypeError] after the errors the service held, and leaves the store
    and the outbox as they were. *)
Theorem run_reader_failure (self : Service) (e : exn) (w : World) :
  load_data env self = Raise e ->
  payments self = [] ->
  run env self w
  = (Ok (errors self ++ [FileTypeError e])%list,
     {| db := db w; outbox := outbox w; sentry := (sentry w ++ [e])%list |}).
Proof.
  intros Hl Hp. unfold run, import_data_from_file. rewrite Hl.
  unfold bind, capture_exception, ret, save_payments, atomic, append_error.
  simpl. rewrite Hp. reflexivity.
Qed.

(** X9. A file with no line, or with the header line only, gives a run
    that returns the errors the service held and changes nothing: the first
    line is never read as a row, whatever it holds. *)
Theorem run_header_only (self : Service) (data : list (list cell)) (w : World) :
  load_data env self = Ok (Some data) ->
  length data <= 1 ->
  payments self = [] ->
  run env self w = (Ok (errors self), w).
Proof.
  intros Hl Hd Hp. unfold run, import_data_from_file. rewrite Hl.
  destruct data as [|h [|l rest]]; [| |simpl in Hd; lia];
    unfold bind, ret, save_payments, atomic; simpl; rewrite Hp; simpl;
    now destruct w.
Qed.

(** *** Rows of text *)

Lemma item_map_CStr (r : list string) (k : nat) :
  k < length r -> item (map CStr r) k = CStr (nth k r "").
Proof.
  intros H. unfold item.
  rewrite (nth_indep _ CNone (CStr "")) by now rewrite length_map.
  apply (map_nth CStr).
Qed.

Lemma build_payment_text_raises
      (self : Service (decimal := decimal)) st (r : list string) i e :
  build_payment env self st (map CStr r) i = Raise e ->
  is_ImportPaymentException e = true
  \/ exists em acc d ext pr de b c,
       new_CommunalPayment st em acc d ext pr de b c = Raise e.
Proof.
  unfold build_payment. rewrite length_map.
  destruct (length r =? cols) eqn:L; simpl; [|intros [= <-]; now left].
  apply Nat.eqb_eq in L.
  destruct (Decimal env _) as [pr|]; [|intros [= <-]; now left].
  rewrite (item_map_CStr r col_month) by (rewrite L; unfold cols, col_month; lia).
  simpl. destruct (PyDate.strptime_dmY _) as [d|]; simpl;
    [|intros [= <-]; now left].
  intros H. right. do 8 eexists. exact H.
Qed.

(** X10. A row of a [csv] file holds text only, so its date cell always has
    [strip]: such a row gives a record, an [ImportPaymentException], or
    [MultipleObjectsReturned] from an email or account number that is not
    unique, and never an [AttributeError]. *)
Theorem csv_row_outcomes
        (self : Service) (st : Store) (r : list string) (i : nat) (e : exn) :
  build_payment env self st (map CStr r) i = Raise e ->
  is_ImportPaymentException e = true
  \/ e = MultipleObjectsReturned MUser
  \/ e = MultipleObjectsReturned MApartment.
Proof.
  intros H.
  destruct (build_payment_text_raises _ _ _ _ _ H)
    as [Hi|(em & acc & d & ext & pr & de & b & c & Hn)]; [now left|].
  destruct (new_CommunalPayment_raises _ _ _ _ _ _ _ _ _ _ Hn)
    as [[m Hm]|[Hm|Hm]]; rewrite Hm; tauto.
Qed.

Lemma objects_get_unique {A} (m : model) (cond : A -> bool) (t : list A) e :
  length (filter cond t) <= 1 ->
  objects_get m cond t = Raise e -> e = DoesNotExist m.
Proof.
  unfold objects_get. destruct (filter cond t) as [|x [|y l]]; simpl;
    intros H [= <-]; [reflexivity|lia].
Qed.

Lemma new_CommunalPayment_unique (st : Store (decimal := decimal))
      em acc d ext pr de b c e :
  emails_unique st -> accounts_unique st ->
  new_CommunalPayment st em acc d ext pr de b c = Raise e ->
  is_ImportPaymentException e = true.
Proof.
  intros Hu Ha. unfold new_CommunalPayment, get_payer_by_email,
    get_apartment_by_account.
  destruct (objects_get MUser _ _) as [u|e1] eqn:G; simpl.
  - destruct (objects_get MApartment _ _) as [a|e2] eqn:G2; simpl;
      [discriminate|].
    rewrite (objects_get_unique _ _ _ _ (Ha _) G2). now intros [= <-].
  - rewrite (objects_get_unique _ _ _ _ (Hu _) G). now intros [= <-].
Qed.

(** X11. On a store where emails and account numbers are unique, the rows
    of a [csv] file never end the import: the loop goes through all the
    lines and gives a service with its records and errors. *)
Theorem csv_import_goes_through
        (self : Service) (rows : list (list string)) (w : World) :
  load_data env self = Ok (Some (map (map CStr) rows)) ->
  emails_unique (db w) -> accounts_unique (db w) ->
  let rs := row_results env self (db w) 1 (map (map CStr) rows) in
  import_data_from_file env self w
  = (Ok {| file := file self;
           payments := (payments self ++ built rs)%list;
           errors := (errors self ++ raised rs)%list;
           currency := currency self |}, w).
Proof.
  intros Hl Hu Ha rs. unfold import_data_from_file. rewrite Hl.
  rewrite (import_lines_collects env (db w) _ 1 self); [reflexivity|].
  clear Hl rs. generalize 1 as i.
  induction rows as [|r rest IH]; intros i e Hin; [destruct Hin|].
  simpl in Hin. destruct (i <? start_row); [now apply (IH (S i))|].
  destruct Hin as [Hin|Hin]; [|now apply (IH (S i))].
  destruct (build_payment_text_raises _ _ _ _ _ Hin)
    as [Hi|(em & acc & d & ext & pr & de & b & c & Hn)]; [exact Hi|].
  now apply (new_CommunalPayment_unique _ _ _ _ _ _ _ _ _ _ Hu Ha Hn).
Qed.

(** *** Rows that end the run *)

Lemma import_lines_aborts (st : Store (decimal := decimal)) (data : list (list cell)) :
  forall i self e,
    In (Raise e) (row_results env self st i data) ->
    is_ImportPaymentException e = false ->
    exists e', import_lines env st i data self = Raise e'
               /\ is_ImportPaymentException e' = false.
Proof.
  induction data as [|line rest IH]; intros i self e Hin He; [destruct Hin|].
  simpl in *. destruct (i <? start_row); [now apply (IH _ _ e)|].
  destruct (build_payment env self st line i) as [p|e0] eqn:Hb.
  - destruct Hin as [Hin|Hin]; [discriminate|].
    apply (IH _ _ e); [|exact He].
    now rewrite (row_results_currency env (append_payment self p) self st rest eq_refl).
  - destruct (is_ImportPaymentException e0) eqn:H0.
    + destruct Hin as [Hin|Hin]; [injection Hin as ->; congruence|].
      apply (IH _ _ e); [|exact He].
      now rewrite (row_results_currency env (append_error self e0) self st rest eq_refl).
    + exists e0. now split.
Qed.

(** X12. When a row raises an exception that is no
    [ImportPaymentException] (an [AttributeError] of a date cell, a
    [MultipleObjectsReturned]), the run ends with such an exception and the
    world is as it was: the records of the rows before it are not stored
    and nobody is notified. *)
Theorem run_aborts_on_unhandled_row
        (self : Service) (data : list (list cell)) (w : World) (e : exn) :
  load_data env self = Ok (Some data) ->
  In (Raise e) (row_results env self (db w) 1 data) ->
  is_ImportPaymentException e = false ->
  exists e', run env self w = (Raise e', w)
             /\ is_ImportPaymentException e' = false.
Proof.
  intros Hl Hin He.
  destruct (import_lines_aborts (db w) data 1 self e Hin He) as (e' & Hi & He').
  exists e'. split; [|exact He'].
  unfold run, import_data_from_file, bind. now rewrite Hl, Hi.
Qed.

(** X13. When two users have the email of a row, the lookup of the payer
    raises [MultipleObjectsReturned], which [get_payer_by_email] does not
    turn into an [ImportPaymentException]; a row that passed the checks of
    columns, price and date raises it as it is. *)
Theorem build_payment_ambiguous_email
        (self : Service) (st : Store) (line : list cell) (i : nat) pr d :
  let em := PyStr.lower (PyStr.strip (py_str (item line col_email))) in
  length line = cols ->
  Decimal env (price_text (item line col_price)) = Some pr ->
  parse_month (item line col_month) = Ok d ->
  2 <= length (filter (fun u => String.eqb (user_email u) em) (users st)) ->
  build_payment env self st line i = Raise (MultipleObjectsReturned MUser).
Proof.
  intros em L Hp Hd H2. unfold build_payment.
  rewrite L, Hp, Hd. simpl.
  unfold new_CommunalPayment, get_payer_by_email, objects_get. fold em.
  destruct (filter _ (users st)) as [|x [|y l]]; simpl in H2; try lia.
  reflexivity.
Qed.

(** *** What a run leaves alone *)

Lemma import_data_from_file_frame (self : Service (decimal := decimal)) w r w' :
  import_data_from_file env self w = (r, w') ->
  db w' = db w /\ outbox w' = outbox w.
Proof.
  unfold import_data_from_file.
  destruct (load_data env self) as [[data|]|e].
  - destruct (import_lines env (db w) 1 data self); now intros [= <- <-].
  - now intros [= <- <-].
  - now intros [= <- <-].
Qed.

Lemma save_payments_frame (self : Service (decimal := decimal)) w r w' :
  save_payments env self w = (r, w') ->
  w' = {| db := with_communal_payments (db w) (table w');
          outbox := outbox w'; sentry := sentry w |}.
Proof.
  rewrite save_payments_unfold.
  destruct (save_all (payments self) w) as [[created|e0] w0] eqn:E.
  - pose proof (save_all_frame _ _ _ _ E) as Hw0.
    destruct (for_each _ _ w0) as [[u'|e1] w1] eqn:E2.
    + intros [= <- <-]. apply post_all_frame in E2 as [Hdb Hs].
      destruct w1 as [d o s]. simpl in *. subst d s. rewrite Hw0. reflexivity.
    + intros [= <- <-]. destruct w as [[] ? ?]. reflexivity.
  - intros [= <- <-]. destruct w as [[] ? ?]. reflexivity.
Qed.

Lemma save_payments_raise_db (self : Service (decimal := decimal)) w e w' :
  save_payments env self w = (Raise e, w') -> db w' = db w.
Proof.
  rewrite save_payments_unfold.
  destruct (save_all (payments self) w) as [[created|e0] w0].
  - destruct (for_each _ _ w0) as [[u'|e1] w1]; [discriminate|].
    now intros [= <- <-].
  - now intros [= <- <-].
Qed.

(** X14. A run only writes payments: users, apartments, lodgers and
    currencies are after it what they were before, however it ends; and
    when it ends with an exception, the payments are what they were too. *)
Theorem run_frame (self : Service) (w : World) (r : result (list exn)) (w' : World) :
  run env self w = (r, w') ->
  users (db w') = users (db w)
  /\ apartments (db w') = apartments (db w)
  /\ lodgers (db w') = lodgers (db w)
  /\ currencies (db w') = currencies (db w)
  /\ (forall e, r = Raise e -> db w' = db w).
Proof.
  rewrite run_unfold.
  destruct (import_data_from_file env self w) as [[self'|e] w0] eqn:Hi;
    apply import_data_from_file_frame in Hi as [Hdb _].
  - destruct (save_payments env self' w0) as [[u|e] w1] eqn:Hs;
      intros [= <- <-].
    + rewrite (save_payments_frame _ _ _ _ Hs), <- Hdb. simpl.
      repeat split; discriminate.
    + rewrite (save_payments_raise_db _ _ _ _ Hs), Hdb.
      repeat split; reflexivity.
  - intros [= <- <-]. rewrite Hdb. repeat split; reflexivity.
Qed.

(** *** What an upsert writes *)

(** X15. An upsert writes the rows of its own key only: the rows of other
    keys are after it what they were, in the same order, and every row of
    its key is the row of the record. *)
Theorem save_payment_other_keys
        (p : CommunalPayment (decimal := decimal)) (w : World) r w1 :
  save_payment p w = (Ok r, w1) ->
  filter (fun x => negb (same_key p x)) (table w1)
  = filter (fun x => negb (same_key p x)) (table w)
  /\ (forall x, In x (table w1) -> same_key p x = true -> x = created_row p).
Proof.
  intros H.
  assert (Hs : same_key p (created_row p) = true) by now apply same_key_created.
  destruct (save_payment_cases p w) as [[M E]|[[M E]|[M E]]];
    rewrite E in H; [| |discriminate]; injection H as <- <-; simpl.
  - split.
    + rewrite filter_app. simpl. rewrite Hs. simpl. now rewrite app_nil_r.
    + intros x Hx Hk. apply in_app_or in Hx as [Hx|[<-|[]]]; [|reflexivity].
      rewrite (matches_zero_no_row _ _ _ M Hx) in Hk. discriminate.
  - split.
    + clear. induction (table w) as [|x t IH]; [reflexivity|].
      simpl. rewrite (same_key_row_key p _ _ (row_key_updated p x)).
      unfold updated at 1.
      destruct (same_key p x) eqn:K; simpl; [exact IH|now rewrite IH].
    + intros x Hx Hk. apply in_map_iff in Hx as (y & <- & Hy).
      rewrite (same_key_row_key p _ _ (row_key_updated p y)) in Hk.
      unfold updated. rewrite Hk. now apply set_defaults_created.
Qed.

(** X16. When the records of a run went through, every stored row is
    either the row of the last record of the run that has its key, with
    that record's currency, price and description, or a row no record of
    the run has the key of, which was in the table before: among rows of a
    file with one key the last one decides. *)
Theorem save_all_last_wins (ps : list (CommunalPayment (decimal := decimal))) :
  forall (w : World) created w1,
    save_all ps w = (Ok created, w1) ->
    forall x, In x (table w1) ->
              match last_with_key ps x with
              | Some p => x = created_row p
              | None => In x (table w)
              end.
Proof.
  unfold last_with_key.
  induction ps as [|p rest IH]; intros w created w1 H x Hx.
  - injection H as <- <-. exact Hx.
  - rewrite save_all_cons in H.
    destruct (save_payment p w) as [[r0|e] w0] eqn:E; [|discriminate].
    destruct (save_all rest w0) as [[more|e] w2] eqn:E2; [|discriminate].
    injection H as <- <-.
    specialize (IH _ _ _ E2 x Hx).
    simpl rev. rewrite find_snoc.
    destruct (find _ (rev rest)) as [q|]; [exact IH|].
    pose proof (save_payment_row_origin _ _ _ _ _ E IH) as Ho.
    now destruct (same_key p x).
Qed.

(** X17. No upsert makes a second row for a key: on a table where every
    key has at most one row, a run leaves such a table, however it ends. *)
Theorem run_keeps_keys_unique
        (self : Service) (w : World) (r : result (list exn)) (w' : World) :
  keys_unique (table w) ->
  run env self w = (r, w') ->
  keys_unique (table w').
Proof.
  intros Hu. rewrite run_unfold.
  destruct (import_data_from_file env self w) as [[self'|e] w0] eqn:Hi;
    apply import_data_from_file_frame in Hi as [Hdb _].
  - destruct (save_payments env self' w0) as [[u|e] w1] eqn:Hs;
      intros [= <- <-].
    + rewrite save_payments_unfold in Hs.
      destruct (save_all (payments self') w0) as [[created|e0] w2] eqn:E;
        [|discriminate].
      destruct (for_each _ _ w2) as [[u'|e1] w3] eqn:E2; [|discriminate].
      injection Hs as <- <-.
      apply post_all_frame in E2 as [-> _].
      rewrite <- Hdb in Hu. clear Hdb.
      revert w0 created w2 E Hu.
      induction (payments self') as [|p rest IH]; intros w0 created w2 E Hu.
      * now injection E as <- <-.
      * rewrite save_all_cons in E.
        destruct (save_payment p w0) as [[r0|e] w4] eqn:E4; [|discriminate].
        destruct (save_all rest w4) as [[more|e] w5] eqn:E5; [|discriminate].
        injection E as <- <-.
        apply (IH _ _ _ E5). intros q.
        apply (step_matches_le p q w0 _ _ E4), Hu.
    + now rewrite (save_payments_raise_db _ _ _ _ Hs), Hdb.
  - intros [= <- <-]. now rewrite Hdb.
Qed.

(** *** What a run that went through has done *)

Lemma import_lines_ok (st : Store (decimal := decimal)) (data : list (list cell)) :
  forall i self self',
    import_lines env st i data self = Ok self' ->
    payments self' = (payments self ++ built (row_results env self st i data))%list
    /\ errors self' = (errors self ++ raised (row_results env self st i data))%list
    /\ (forall e, In e (raised (row_results env self st i data)) ->
                  is_ImportPaymentException e = true).
Proof.
  induction data as [|line rest IH]; intros i self self' H.
  - injection H as <-. simpl. rewrite !app_nil_r. repeat split. intros e [].
  - simpl in *. destruct (i <? start_row); [now apply IH|].
    destruct (build_payment env self st line i) as [p|e0] eqn:Hb.
    + destruct (IH _ _ _ H) as (Hp & He & Hr).
      rewrite (row_results_currency env (append_payment self p) self st rest eq_refl)
        in Hp, He, Hr.
      simpl in *. rewrite <- app_assoc in Hp. now repeat split.
    + destruct (is_ImportPaymentException e0) eqn:H0; [|discriminate].
      destruct (IH _ _ _ H) as (Hp & He & Hr).
      rewrite (row_results_currency env (append_error self e0) self st rest eq_refl)
        in Hp, He, Hr.
      simpl in *. rewrite <- app_assoc in He. repeat split; try assumption.
      intros e [<-|Hin]; [exact H0|now apply Hr].
Qed.

(** X18. A run of a new service that read its file and returned has
    returned the errors of the rows in their order, all of them
    [ImportPaymentException]s; it has sent, for each record built and in the
    order of the rows, the notification of the payer and then those of the
    lodgers of the apartment, and nothing for a row that was refused; and
    it has handed nothing to [capture_exception]. *)
Theorem run_returned
        (self : Service) (data : list (list cell)) (w : World)
        (errs : list exn) (w' : World) :
  load_data env self = Ok (Some data) ->
  payments self = [] -> errors self = [] ->
  run env self w = (Ok errs, w') ->
  let rs := row_results env self (db w) 1 data in
  errs = raised rs
  /\ (forall e, In e errs -> is_ImportPaymentException e = true)
  /\ outbox w'
     = (outbox w ++ flat_map (notices (db w)) (map created_row (built rs)))%list
  /\ sentry w' = sentry w.
Proof.
  intros Hl Hp He H rs. rewrite run_unfold in H.
  unfold import_data_from_file in H. rewrite Hl in H.
  destruct (import_lines env (db w) 1 data self) as [self'|e] eqn:Hi;
    [|discriminate].
  destruct (import_lines_ok _ _ _ _ _ Hi) as (Hps & Hes & Hr).
  fold rs in Hps, Hes, Hr. rewrite Hp in Hps. rewrite He in Hes. simpl in *.
  destruct (save_payments env self' w) as [[u|e] w1] eqn:Hs; [|discriminate].
  injection H as <- <-.
  rewrite save_payments_unfold in Hs.
  destruct (save_all (payments self') w) as [[created|e0] w0] eqn:E;
    [|discriminate].
  destruct (for_each _ _ w0) as [[u'|e1] w2] eqn:E2; [|discriminate].
  injection Hs as <- <-.
  destruct (save_all_ok _ _ _ _ E) as (Hc & _).
  pose proof (save_all_frame _ _ _ _ E) as Hw0.
  destruct (post_all_ok _ _ _ _ _ E2) as [_ Hw2].
  split; [exact Hes|]. split; [rewrite Hes; exact Hr|].
  rewrite Hw2, Hc, Hps. simpl.
  rewrite (flat_map_notices_lodgers (db w0) (db w)) by (rewrite Hw0; reflexivity).
  rewrite Hw0. simpl. now split.
Qed.

Lemma lodger_notices_among (st : Store (decimal := decimal))
      (rows : list StoredPayment) (r : StoredPayment) (u : User) :
  In (LodgerNotice r u) (flat_map (notices st) rows) ->
  In r rows
  /\ exists l, In l (lodgers st)
               /\ lodger_apartment_id l = sp_apartment_id r
               /\ resident l = u.
Proof.
  intros H. apply in_flat_map in H as (x & Hx & Hn).
  unfold notices in Hn. destruct Hn as [Hn|Hn]; [discriminate|].
  apply in_map_iff in Hn as (l & Hl & Hin).
  injection Hl as -> <-.
  apply filter_In in Hin as [Hin Hid].
  split; [exact Hx|]. exists l. repeat split; [exact Hin|].
  now apply Z.eqb_eq.
Qed.

Lemma post_all_outbox (l : list (notification (decimal := decimal))) w r w2 :
  for_each l (post env) w = (r, w2) ->
  exists l1, outbox w2 = (outbox w ++ l1)%list /\ incl l1 l.
Proof.
  destruct (delivered_or_failure env l)
    as [Hall|(l1 & n & l2 & e & -> & Hall & Hn)].
  - rewrite (post_all_delivered env _ w Hall). intros [= <- <-].
    exists l. split; [reflexivity|apply incl_refl].
  - rewrite (post_first_failure env l1 l2 n e w Hall Hn). intros [= <- <-].
    exists l1. split; [reflexivity|]. now apply incl_appl, incl_refl.
Qed.

(** X19. Whatever [save_payments] sends to a lodger, and however it ends,
    it sends for a payment of a record of the run and to a resident of a
    lodger of that record's apartment: nobody else gets a lodger's
    notification. *)
Theorem save_payments_notifies_residents_only
        (self : Service) (w : World) (res : result unit) (w' : World)
        (r : StoredPayment) (u : User) :
  save_payments env self w = (res, w') ->
  In (LodgerNotice r u) (outbox w') ->
  In (LodgerNotice r u) (outbox w)
  \/ exists p l,
       In p (payments self) /\ r = created_row p
       /\ In l (lodgers (db w))
       /\ lodger_apartment_id l = apartment_pk (apartment p)
       /\ resident l = u.
Proof.
  rewrite save_payments_unfold.
  destruct (save_all (payments self) w) as [[created|e0] w0] eqn:E.
  - destruct (save_all_ok _ _ _ _ E) as (Hc & _).
    pose proof (save_all_frame _ _ _ _ E) as Hw0.
    assert (Hsent : forall w2 l1,
               outbox w2 = (outbox w0 ++ l1)%list ->
               incl l1 (flat_map (notices (db w0)) created) ->
               In (LodgerNotice r u) (outbox w2) ->
               In (LodgerNotice r u) (outbox w)
               \/ exists p l,
                    In p (payments self) /\ r = created_row p
                    /\ In l (lodgers (db w))
                    /\ lodger_apartment_id l = apartment_pk (apartment p)
                    /\ resident l = u).
    { intros w2 l1 Ho Hi Hin. rewrite Ho in Hin.
      apply in_app_or in Hin as [Hin|Hin].
      - left. now rewrite Hw0 in Hin.
      - right. apply Hi, lodger_notices_among in Hin as (Hr & l & Hl & Hid & Hu).
        rewrite Hc in Hr. apply in_map_iff in Hr as (p & <- & Hp).
        exists p, l. rewrite Hw0 in Hl. now repeat split. }
    destruct (for_each _ _ w0) as [[u'|e1] w2] eqn:E2;
      destruct (post_all_outbox _ _ _ _ E2) as (l1 & Ho & Hi);
      intros [= <- <-]; apply (Hsent w2 l1 Ho Hi).
  - intros [= <- <-]. now left.
Qed.

End Coverage.

(* ===================================================================== *)
(** ** The further properties on the small installation *)
(* ===================================================================== *)

(** X1 on the sheet with a gap: its second row, stored with nine cells, is
    read with eight. *)
Lemma read_sheet_rows_witness :
  let line := take_cols (map CStr Sample.good_row ++ [CStr "note"])%list in
  In line (read_sheet Cases.sheet_with_gap)
  /\ length line = cols
  /\ truthy (item line 0) = true
  /\ forall (self : Service (decimal := Sample.dec)) st i msg,
       build_payment Sample.env self st line i = Raise (ParseFileError msg) ->
       msg <> columns_message i (length line).
Proof.
  cbv zeta.
  assert (H : In (take_cols (map CStr Sample.good_row ++ [CStr "note"])%list)
                 (read_sheet Cases.sheet_with_gap)) by (right; left; reflexivity).
  split; [exact H|].
  exact (read_sheet_rows Sample.env Cases.sheet_with_gap _ H).
Defined.


(** X4 on a name with two points and capitals. *)
Lemma extension_last_point_witness :
  PyStr.contains "." "CSV" = false
  /\ extension "Payments.2024.CSV" = "csv"
  /\ extension "CSV" = "csv".
Proof.
  split; [reflexivity|].
  exact (extension_last_point "Payments.2024" "CSV" eq_refl).
Defined.

(** X6 on the good row: the account number [" ACC-1 "] is trimmed and keeps
    its capitals, the email is put in lower case. *)
Lemma build_payment_fields_witness :
  build_payment Sample.env (Sample.service OtherObject) Sample.store0
                (map CStr Sample.good_row) 2 = Ok Sample.payment1
  /\ email Sample.payment1 = "anna@example.com"
  /\ account_number Sample.payment1 = "ACC-1"
  /\ cp_currency Sample.payment1 = Sample.euro.
Proof.
  split; [reflexivity|].
  destruct (build_payment_fields Sample.env (Sample.service OtherObject)
              Sample.store0 (map CStr Sample.good_row) 2 Sample.payment1 eq_refl)
    as (_ & He & Ha & _ & _ & _ & _ & Hc).
  split; [exact He|]. split; [exact Ha|exact Hc].
Defined.

(** X7 on the good row with another apartment label, on another line. *)
Lemma build_payment_ignores_label_witness :
  length (map CStr Sample.good_row) = cols
  /\ length (map CStr Cases.good_row_other_label) = cols
  /\ build_payment Sample.env (Sample.service OtherObject) Sample.store0
       (map CStr Sample.good_row) 2
     = build_payment Sample.env (Sample.service OtherObject) Sample.store0
         (map CStr Cases.good_row_other_label) 5.
Proof.
  split; [reflexivity|]. split; [reflexivity|].
  apply (build_payment_ignores_label Sample.env); try reflexivity.
  intros k Hk.
  do 8 (destruct k as [|k]; [first [reflexivity | now destruct Hk]|]).
  now destruct k.
Defined.

(** X8 on a workbook without a sheet. *)
Lemma run_reader_failure_witness :
  load_data Cases.env_no_sheet (Sample.service (Path "payments.xlsx"))
  = Raise (FileTypeError_text "File does not have sheet")
  /\ run Cases.env_no_sheet (Sample.service (Path "payments.xlsx")) Sample.world0
     = (Ok [FileTypeError (FileTypeError_text "File does not have sheet")],
        {| db := Sample.store0; outbox := [];
           sentry := [FileTypeError_text "File does not have sheet"] |}).
Proof.
  split; [reflexivity|].
  exact (run_reader_failure Cases.env_no_sheet
           (Sample.service (Path "payments.xlsx")) _ Sample.world0
           eq_refl eq_refl).
Defined.

(** X9 on a file that holds its header only. *)
Lemma run_header_only_witness :
  load_data Cases.env_header_only (Sample.service (Path "empty.csv"))
  = Ok (Some [map CStr Sample.header])
  /\ run Cases.env_header_only (Sample.service (Path "empty.csv")) Sample.world0
     = (Ok [], Sample.world0).
Proof.
  split; [reflexivity|].
  apply (run_header_only Cases.env_header_only
           (Sample.service (Path "empty.csv")) [map CStr Sample.header]);
    [reflexivity|apply le_n|reflexivity].
Defined.

(** X10 on the good row and a store with two users of its email. *)
Lemma csv_row_outcomes_witness :
  build_payment Sample.env (Sample.service OtherObject) Cases.store_two_annas
                (map CStr Sample.good_row) 2
  = Raise (MultipleObjectsReturned MUser)
  /\ (is_ImportPaymentException (MultipleObjectsReturned MUser) = true
      \/ MultipleObjectsReturned MUser = MultipleObjectsReturned MUser
      \/ MultipleObjectsReturned MUser = MultipleObjectsReturned MApartment).
Proof.
  split; [reflexivity|].
  exact (csv_row_outcomes Sample.env (Sample.service OtherObject)
           Cases.store_two_annas Sample.good_row 2 _ eq_refl).
Defined.

Lemma sample_emails_unique : emails_unique Sample.store0.
Proof.
  intros em.
  change (length (filter (fun u => String.eqb (user_email u) em)
                         [Sample.anna; Sample.boris]) <= 1).
  cbn [filter user_email Sample.anna Sample.boris].
  destruct (String.eqb_spec "anna@example.com" em) as [<-|_].
  - apply le_n.
  - destruct (String.eqb "boris@example.com" em);
      [apply le_n|apply Nat.le_0_l].
Defined.

Lemma sample_accounts_unique : accounts_unique Sample.store0.
Proof.
  intros acc.
  change (length (filter (fun a => String.eqb (apartment_account_number a) acc)
                         [Sample.flat]) <= 1).
  cbn [filter apartment_account_number Sample.flat].
  destruct (String.eqb "ACC-1" acc); [apply le_n|apply Nat.le_0_l].
Defined.

(** X11 on the file of three rows. *)
Lemma csv_import_goes_through_witness :
  let self := Sample.service (Path "payments.csv") in
  emails_unique (db Sample.world0) /\ accounts_unique (db Sample.world0)
  /\ import_data_from_file Sample.env self Sample.world0
     = (Ok {| file := Path "payments.csv";
              payments := [Sample.payment1];
              errors :=
                [ParseFileError "Invalid price value format: got=abc expected='00.00'";
                 ImportPaymentException "Apartment by account number #ACC-9 not found"];
              currency := Sample.euro |}, Sample.world0).
Proof.
  cbv zeta. split; [exact sample_emails_unique|].
  split; [exact sample_accounts_unique|].
  exact (csv_import_goes_through Sample.env (Sample.service (Path "payments.csv"))
           [Sample.header; Sample.good_row; Sample.bad_price_row;
            Sample.unknown_account_row]
           Sample.world0 eq_refl sample_emails_unique sample_accounts_unique).
Defined.

(** X12 on the sheet with an empty date cell. *)
Lemma run_aborts_on_unhandled_row_witness :
  let self := Sample.service (Path "payments.xlsx") in
  let e := AttributeError "'NoneType' object has no attribute 'strip'" in
  In (Raise e)
     (row_results Sample.env self (db Sample.world0) 1
                  (read_sheet Sample.empty_date_sheet))
  /\ exists e', run Sample.env self Sample.world0 = (Raise e', Sample.world0)
                /\ is_ImportPaymentException e' = false.
Proof.
  cbv zeta.
  assert (H : In (Raise (AttributeError "'NoneType' object has no attribute 'strip'"))
                 (row_results Sample.env (Sample.service (Path "payments.xlsx"))
                    (db Sample.world0) 1 (read_sheet Sample.empty_date_sheet)))
    by (left; reflexivity).
  split; [exact H|].
  exact (run_aborts_on_unhandled_row Sample.env
           (Sample.service (Path "payments.xlsx"))
           (read_sheet Sample.empty_date_sheet) Sample.world0 _
           eq_refl H eq_refl).
Defined.

(** X13 on the good row and a store with two users of its email. *)
Lemma build_payment_ambiguous_email_witness :
  length (filter (fun u => String.eqb (user_email u) "anna@example.com")
                 (users Cases.store_two_annas)) = 2
  /\ build_payment Sample.env (Sample.service OtherObject) Cases.store_two_annas
       (map CStr Sample.good_row) 2
     = Raise (MultipleObjectsReturned MUser).
Proof.
  split; [reflexivity|].
  exact (build_payment_ambiguous_email Sample.env (Sample.service OtherObject)
           Cases.store_two_annas (map CStr Sample.good_row) 2
           (1250, -2)%Z (mk_datetime 2001 1 1 0 0 0)
           eq_refl eq_refl eq_refl (le_n 2)).
Defined.

(** X14 on the file of three rows. *)
Lemma run_frame_witness :
  let out := run Sample.env (Sample.service (Path "payments.csv")) Sample.world0 in
  users (db (snd out)) = users Sample.store0
  /\ apartments (db (snd out)) = apartments Sample.store0
  /\ lodgers (db (snd out)) = lodgers Sample.store0
  /\ currencies (db (snd out)) = currencies Sample.store0
  /\ (forall e, fst out = Raise e -> db (snd out) = db Sample.world0).
Proof.
  cbv zeta.
  exact (run_frame Sample.env (Sample.service (Path "payments.csv"))
           Sample.world0 _ _ (surjective_pairing _)).
Defined.

(** X15 on a table of two rows: the upsert of the corrected record rewrites
    the row of its key and keeps the other. *)
Lemma save_payment_other_keys_witness :
  save_payment Sample.payment1' Cases.world_two_rows
  = (Ok (created_row Sample.payment1'),
     with_table Sample.world0
       [created_row Sample.payment2; created_row Sample.payment1'])
  /\ filter (fun x => negb (same_key Sample.payment1' x))
            [created_row Sample.payment2; created_row Sample.payment1']
     = [created_row Sample.payment2].
Proof.
  split; [reflexivity|].
  exact (proj1 (save_payment_other_keys Sample.payment1' Cases.world_two_rows
                  _ _ eq_refl)).
Defined.

(** X16 on three records, the first and the last of one key: the row of
    that key is the row of the last. *)
Lemma save_all_last_wins_witness :
  communal_payments (db (snd (save_all Cases.three_payments Sample.world0)))
  = [created_row Sample.payment1'; created_row Sample.payment2]
  /\ last_with_key Cases.three_payments (created_row Sample.payment1')
     = Some Sample.payment1'
  /\ created_row Sample.payment1' = created_row Sample.payment1'.
Proof.
  split; [reflexivity|]. split; [reflexivity|].
  exact (save_all_last_wins Cases.three_payments Sample.world0 _ _ eq_refl
           (created_row Sample.payment1') (or_introl eq_refl)).
Defined.

(** X17 on the file of three rows and an empty table. *)
Lemma run_keeps_keys_unique_witness :
  keys_unique (communal_payments (db Sample.world0))
  /\ keys_unique
       (communal_payments
          (db (snd (run Sample.env (Sample.service (Path "payments.csv"))
                        Sample.world0)))).
Proof.
  assert (H : keys_unique (communal_payments (db Sample.world0)))
    by (intros q; apply Nat.le_0_l).
  split; [exact H|].
  exact (run_keeps_keys_unique Sample.env (Sample.service (Path "payments.csv"))
           Sample.world0 _ _ H (surjective_pairing _)).
Defined.

(** X18 on the file of three rows: two errors, and the notifications of the
    one record built. *)
Lemma run_returned_witness :
  let self := Sample.service (Path "payments.csv") in
  let out := run Sample.env self Sample.world0 in
  fst out
  = Ok [ParseFileError "Invalid price value format: got=abc expected='00.00'";
        ImportPaymentException "Apartment by account number #ACC-9 not found"]
  /\ outbox (snd out)
     = [PayerNotice (created_row Sample.payment1);
        LodgerNotice (created_row Sample.payment1) Sample.boris]
  /\ sentry (snd out) = [].
Proof.
  cbv zeta.
  destruct (run_returned Sample.env (Sample.service (Path "payments.csv"))
              (map (map CStr)
                   [Sample.header; Sample.good_row; Sample.bad_price_row;
                    Sample.unknown_account_row])
              Sample.world0 _ _ eq_refl eq_refl eq_refl eq_refl)
    as (_ & _ & Ho & Hs).
  split; [reflexivity|]. split; [exact Ho|exact Hs].
Defined.

(** X19 on the good row: the lodger notified is Boris, who lodges in the
    apartment of the record. *)
Lemma save_payments_notifies_residents_only_witness :
  let self := {| file := Path "one.csv"; payments := [Sample.payment1];
                 errors := []; currency := Sample.euro |} in
  let row := created_row Sample.payment1 in
  In (LodgerNotice row Sample.boris)
     (outbox (snd (save_payments Sample.env self Sample.world0)))
  /\ (In (LodgerNotice row Sample.boris) (outbox Sample.world0)
      \/ exists p l,
           In p (payments self) /\ row = created_row p
           /\ In l (lodgers (db Sample.world0))
           /\ lodger_apartment_id l = apartment_pk (apartment p)
           /\ resident l = Sample.boris).
Proof.
  cbv zeta.
  assert (H : In (LodgerNotice (created_row Sample.payment1) Sample.boris)
                 (outbox (snd (save_payments Sample.env
                    {| file := Path "one.csv"; payments := [Sample.payment1];
                       errors := []; currency := Sample.euro |} Sample.world0))))
    by (right; left; reflexivity).
  split; [exact H|].
  exact (save_payments_notifies_residents_only Sample.env _ Sample.world0 _ _
           _ _ (surjective_pairing _) H).
Defined.

(** X5 on the sample store: the currency of the code [EUR] is found, that of
    [USD] is not. *)
Lemma init_service_witness :
  init "EUR" (Path "payments.csv") Sample.store0
  = Ok (Sample.service (Path "payments.csv"))
  /\ init (decimal := Sample.dec) "USD" (Path "payments.csv") Sample.store0
     = Raise (DoesNotExist MCurrency).
Proof.
  split; [reflexivity|].
  apply (proj2 (init_service "USD" (Path "payments.csv") Sample.store0)).
  intros c [<-|[]]. discriminate.
Defined.
